(** * Quotation Management RAG API: document builder, index gateway and
      answer synthesizer of [app/embedding_service.py], with the request
      model of [main.py].

    The service is string formatting around two external collaborators, a
    sentence-embedding model and a vector index.  The collaborators are
    opaque here: they are the variables of [Section Service].  Python
    dictionaries are finite maps from strings to values, Python exceptions
    are explicit results, the logger and the external state are threaded
    through a small state-and-exception monad. *)

From Stdlib Require Import ZArith String Ascii List Lia.
From Stdlib Require Import Numbers.DecimalString Numbers.DecimalPos Numbers.DecimalZ.
From Stdlib Require Import Floats.PrimFloat Floats.SpecFloat Floats.FloatOps Uint63.
From stdpp Require Import base option list strings gmap fin_maps.

Local Open Scope string_scope.
Local Open Scope Z_scope.
Local Open Scope list_scope.

(** ** Python values of a quotation record

    The fields of [QuotationItemCreate] are [Optional[int]],
    [Optional[str]] and [Optional[float]]; a record reaches the service as
    a [dict] from field names to such values. *)

Inductive value : Type :=
| VNone
| VInt (n : Z)
| VFloat (x : float)
| VStr (s : string).

Abbreviation record := (gmap string value).

(** [bool(v)]: [None], [0], [0.0], [-0.0] and [''] are false. *)
Definition truthy (v : value) : bool :=
  match v with
  | VNone => false
  | VInt n => negb (n =? 0)
  | VFloat x => negb (PrimFloat.eqb x PrimFloat.zero)
  | VStr s => negb (String.eqb s "")
  end.

(** [str(n)] of a Python [int]: decimal digits, a leading [-] when negative. *)
Definition str_int (n : Z) : string := NilZero.string_of_int (Z.to_int n).

(** ** Exceptions, log records, and the vector index interface *)

(** A Python exception: its class and [str(e)]. *)
Record exception : Type := Exception { exn_class : string; exn_str : string }.

Inductive level : Type := INFO | ERROR.

Abbreviation log_record := (level * string)%type.

(** Keyword arguments of [collection.add]: four parallel lists. *)
Record add_request (embedding : Type) : Type := AddRequest {
  embeddings : list embedding;
  documents : list string;
  metadatas : list record;
  ids : list string
}.

Arguments AddRequest {embedding} _ _ _ _.
Arguments embeddings {embedding} _.
Arguments documents {embedding} _.
Arguments metadatas {embedding} _.
Arguments ids {embedding} _.

(** What [collection.query] returns: for each of the three keys either
    [None] or one inner list per query embedding. *)
Record chroma_result : Type := ChromaResult {
  res_documents : option (list (list string));
  res_metadatas : option (list (list record));
  res_distances : option (list (list float))
}.

(** The dictionary built by [query]. *)
Record query_result : Type := QueryResultDict {
  q_question : string;
  q_documents : list string;
  q_metadatas : list record;
  q_distances : list float;
  q_count : Z
}.

(** [x[0] if x else []] on an optional list of lists: [None] and [[]] are
    false. *)
Definition first_or_empty {A : Type} (x : option (list (list A))) : list A :=
  match x with
  | Some (inner :: _) => inner
  | _ => []
  end.

(** [zip(a, b, c)]: stops at the shortest argument. *)
Fixpoint zip3 {A B C : Type} (a : list A) (b : list B) (c : list C) : list (A * B * C) :=
  match a, b, c with
  | x :: a', y :: b', z :: c' => (x, y, z) :: zip3 a' b' c'
  | _, _, _ => []
  end.

(** The line feed of the [\n] escapes. *)
Definition nl : string := String (ascii_of_nat 10) EmptyString.

(** ** The request model of the facade ([main.py])

    [QuotationItemCreate]: every field optional, with the defaults of the
    class body. *)
Record QuotationItemCreate : Type := {
  id : option Z;
  customername : option string;
  customerphone : option string;
  customeremail : option string;
  customerid : option Z;
  customercode : option string;
  quotationid : option Z;
  quotationcode : option string;
  quptationstatus : option string;
  quotationtotalamount : option float;
  quotationtermsconditions : option string;
  quotationsellerremarks : option string;
  quotationissuedby : option string;
  quotationcreatedat : option string;
  itemname : option string;
  itemspecifications : option string;
  itembrand : option string;
  itemquantity : option float;
  itemdeliverydate : option string;
  itempricedemanded : option string;
  itempricevalidtill : option string;
  itemlistingprice : option float;
  itemsellerdiscount : option float;
  itemcustomerdiscount : option float;
  itempurchaseprice : option float;
  itemsellingprice : option float;
  itemproductid : option Z;
  itemhsncode : option string;
  itemuom : option string;
  itemtaxpercent : option string;
  sellername : option string;
  sellerphone : option string
}.

Definition of_int (o : option Z) : value := from_option VInt VNone o.
Definition of_str (o : option string) : value := from_option VStr VNone o.
Definition of_float (o : option float) : value := from_option VFloat VNone o.

(** [item.dict()]: every field of the model becomes a key, an unset
    optional field maps to [None]. *)
Definition dict (item : QuotationItemCreate) : record :=
  list_to_map [
    ("id", of_int (id item));
    ("customername", of_str (customername item));
    ("customerphone", of_str (customerphone item));
    ("customeremail", of_str (customeremail item));
    ("customerid", of_int (customerid item));
    ("customercode", of_str (customercode item));
    ("quotationid", of_int (quotationid item));
    ("quotationcode", of_str (quotationcode item));
    ("quptationstatus", of_str (quptationstatus item));
    ("quotationtotalamount", of_float (quotationtotalamount item));
    ("quotationtermsconditions", of_str (quotationtermsconditions item));
    ("quotationsellerremarks", of_str (quotationsellerremarks item));
    ("quotationissuedby", of_str (quotationissuedby item));
    ("quotationcreatedat", of_str (quotationcreatedat item));
    ("itemname", of_str (itemname item));
    ("itemspecifications", of_str (itemspecifications item));
    ("itembrand", of_str (itembrand item));
    ("itemquantity", of_float (itemquantity item));
    ("itemdeliverydate", of_str (itemdeliverydate item));
    ("itempricedemanded", of_str (itempricedemanded item));
    ("itempricevalidtill", of_str (itempricevalidtill item));
    ("itemlistingprice", of_float (itemlistingprice item));
    ("itemsellerdiscount", of_float (itemsellerdiscount item));
    ("itemcustomerdiscount", of_float (itemcustomerdiscount item));
    ("itempurchaseprice", of_float (itempurchaseprice item));
    ("itemsellingprice", of_float (itemsellingprice item));
    ("itemproductid", of_int (itemproductid item));
    ("itemhsncode", of_str (itemhsncode item));
    ("itemuom", of_str (itemuom item));
    ("itemtaxpercent", of_str (itemtaxpercent item));
    ("sellername", of_str (sellername item));
    ("sellerphone", of_str (sellerphone item))
  ].

(** The model a request body [{}] parses to: the declared defaults. *)
Definition default_item : QuotationItemCreate := {|
  id := None; customername := None; customerphone := None; customeremail := None;
  customerid := Some 0; customercode := None; quotationid := Some 0;
  quotationcode := None; quptationstatus := None;
  quotationtotalamount := Some 0%float; quotationtermsconditions := None;
  quotationsellerremarks := None; quotationissuedby := Some "indispare";
  quotationcreatedat := None; itemname := None; itemspecifications := None;
  itembrand := None; itemquantity := None; itemdeliverydate := None;
  itempricedemanded := None; itempricevalidtill := None;
  itemlistingprice := Some 0%float; itemsellerdiscount := Some 0%float;
  itemcustomerdiscount := Some 0%float; itempurchaseprice := Some 0%float;
  itemsellingprice := Some 0%float; itemproductid := None; itemhsncode := None;
  itemuom := None; itemtaxpercent := Some "18"; sellername := None; sellerphone := None
|}.

(** [sub in s]. *)
Definition contains (sub s : string) : bool :=
  match String.index 0 sub s with
  | Some _ => true
  | None => false
  end.

(** A field that is absent (no key, or [None]), empty ([""]) or zero. *)
Definition absent_empty_or_zero (o : option value) : bool :=
  match o with
  | None => true
  | Some VNone => true
  | Some (VStr s) => String.eqb s ""
  | Some (VInt n) => n =? 0
  | Some (VFloat x) => PrimFloat.eqb x PrimFloat.zero
  end.

(** Presence in the wording of the specification, for which absence is
    distinct from zero and empty: the key is there and its value is not
    [None]. *)
Definition has_value (d : record) (key : string) : bool :=
  match d !! key with
  | None => false
  | Some VNone => false
  | Some _ => true
  end.

(** A number that is exactly zero. *)
Definition is_zero (v : value) : bool :=
  match v with
  | VInt n => n =? 0
  | VFloat x => PrimFloat.eqb x PrimFloat.zero
  | _ => false
  end.

(** ** Test doubles for the two external collaborators

    A recording stub: [encode] and [add] fail when told to, [add] records
    the request it received, [query] answers with a canned reply.  The
    general theorems below hold for every collaborator; the stub gives
    them concrete instances. *)
Module Stub.

Record state : Type := State {
  encode_failure : option exception;
  add_failure : option exception;
  query_reply : exception + chroma_result;
  added : list (add_request nat)
}.

(** [repr(x)] for the floats the examples use: zeros, infinities, nan and
    integral values below [10^16], which Python prints as the integer
    followed by [.0]. *)
Definition float_repr (x : float) : string :=
  match FloatOps.Prim2SF x with
  | SpecFloat.S754_zero s => if s then "-0.0" else "0.0"
  | SpecFloat.S754_infinity s => if s then "-inf" else "inf"
  | SpecFloat.S754_nan => "nan"
  | SpecFloat.S754_finite s m e =>
      let n := if 0 <=? e then Z.pos m * 2 ^ e else Z.pos m / 2 ^ (- e) in
      let integral := if 0 <=? e then true else Z.pos m mod 2 ^ (- e) =? 0 in
      if integral && (n <? 10 ^ 16)
      then (if s then "-" else "") +:+ str_int n +:+ ".0"
      else "<float>"
  end.

Definition encode (text : string) (s : state) : state * (exception + nat) :=
  match encode_failure s with
  | Some e => (s, inl e)
  | None => (s, inr (String.length text))
  end.

Definition add (req : add_request nat) (s : state) : state * (exception + unit) :=
  match add_failure s with
  | Some e => (s, inl e)
  | None =>
      (State (encode_failure s) (add_failure s) (query_reply s) (added s ++ [req]), inr tt)
  end.

Definition query (query_embeddings : list nat) (n_results : Z) (s : state)
  : state * (exception + chroma_result) :=
  (s, query_reply s).

Definition empty_reply : chroma_result :=
  ChromaResult (Some [[]]) (Some [[]]) (Some [[]]).

(** An index that holds nothing and never fails. *)
Definition healthy : state := State None None (inr empty_reply) [].

End Stub.

(** ** Records used in the examples *)

Definition acme_record : record :=
  list_to_map [("id", VInt 1); ("customername", VStr "Acme");
               ("itemname", VStr "Bearing"); ("itemsellingprice", VInt 500)].

Definition zero_amount_record : record :=
  list_to_map [("customername", VStr "Acme"); ("quotationtotalamount", VInt 0)].

(** A batch whose first record carries the quotation code ["item_1"] and
    whose second record has neither [id] nor [quotationcode]. *)
Definition colliding_batch : list record :=
  [list_to_map [("quotationcode", VStr "item_1")]; list_to_map [("itemname", VStr "Bearing")]].

(** A batch with an identified record between two that have neither key. *)
Definition anonymous_batch : list record :=
  [list_to_map [("itemname", VStr "Bearing")];
   list_to_map [("id", VInt 7); ("quotationcode", VStr "Q1")];
   list_to_map [("itemname", VStr "Seal")]].

Definition model_down : exception := Exception "RuntimeError" "model unavailable".

(** A stub whose embedding model raises. *)
Definition broken_model : Stub.state := Stub.State (Some model_down) None (inr Stub.empty_reply) [].

(** A request that sets only the quotation code. *)
Definition coded_item : QuotationItemCreate := {|
  id := None; customername := None; customerphone := None; customeremail := None;
  customerid := Some 0; customercode := None; quotationid := Some 0;
  quotationcode := Some "Q1"; quptationstatus := None;
  quotationtotalamount := Some 0%float; quotationtermsconditions := None;
  quotationsellerremarks := None; quotationissuedby := Some "indispare";
  quotationcreatedat := None; itemname := None; itemspecifications := None;
  itembrand := None; itemquantity := None; itemdeliverydate := None;
  itempricedemanded := None; itempricevalidtill := None;
  itemlistingprice := Some 0%float; itemsellerdiscount := Some 0%float;
  itemcustomerdiscount := Some 0%float; itempurchaseprice := Some 0%float;
  itemsellingprice := Some 0%float; itemproductid := None; itemhsncode := None;
  itemuom := None; itemtaxpercent := Some "18"; sellername := None; sellerphone := None
|}.

(** Three stored metadatas and a ranked result sequence over them. *)
Definition bearing : record :=
  list_to_map [("quotationcode", VStr "Q1"); ("itemname", VStr "Bearing");
               ("customername", VStr "Acme"); ("itemsellingprice", VInt 500);
               ("quptationstatus", VStr "open")].

Definition seal : record := list_to_map [("itemname", VStr "Seal")].

Definition gasket : record :=
  list_to_map [("quotationcode", VStr "Q3"); ("quptationstatus", VStr "sent")].

Definition ranked_rows : list (string * record * float) :=
  [("Item: Bearing", bearing, 0.125%float); ("Item: Seal", seal, 0.25%float);
   ("Quotation Code: Q3", gasket, 0.5%float)].

(** The same documents and metadatas with other distances. *)
Definition rescored_rows : list (string * record * float) :=
  [("Item: Bearing", bearing, 7%float); ("Item: Seal", seal, 0%float);
   ("Quotation Code: Q3", gasket, 3.5%float)].

(** A metadata whose selling price is the default [0.0]. *)
Definition unpriced : record :=
  list_to_map [("itemname", VStr "Bearing"); ("itemsellingprice", VFloat 0%float)].

(** A stub whose index answers every query with [rows]. *)
Definition serving (rows : list (string * record * float)) : Stub.state :=
  Stub.State None None
    (inr (ChromaResult (Some [map (fun row => row.1.1) rows])
                       (Some [map (fun row => row.1.2) rows])
                       (Some [map snd rows])))
    [].

(** ** The service ([QuotationEmbeddingService]) *)

Section Service.

(** [repr] of a Python [float] (the shortest decimal that round-trips),
    provided by the interpreter. *)
Variable float_repr : float -> string.

(** The sentence-embedding model and the vector index: a vector type, a
    state the two collaborators own, and the three calls the service
    makes.  Each call may change that state and may raise. *)
Variable embedding : Type.
Variable backend : Type.
Variable model_encode : string -> backend -> backend * (exception + embedding).
Variable collection_add : add_request embedding -> backend -> backend * (exception + unit).
Variable collection_query : list embedding -> Z -> backend -> backend * (exception + chroma_result).

(** [str(v)], which is also what an f-string field [{v}] renders. *)
Definition str (v : value) : string :=
  match v with
  | VNone => "None"
  | VInt n => str_int n
  | VFloat x => float_repr x
  | VStr s => s
  end.

(** [d.get(key)] and [d.get(key, default)]. *)
Definition get (d : record) (key : string) : value := default VNone (d !! key).
Definition get_or (d : record) (key : string) (dflt : value) : value := default dflt (d !! key).

(** *** State and exceptions *)

Record world : Type := World { backend_of : backend; log_of : list log_record }.

Definition M (A : Type) : Type := world -> world * (exception + A).

Definition ret {A : Type} (a : A) : M A := fun w => (w, inr a).

Definition bind {A B : Type} (m : M A) (k : A -> M B) : M B :=
  fun w =>
    match m w with
    | (w', inr a) => k a w'
    | (w', inl e) => (w', inl e)
    end.

Definition raise {A : Type} (e : exception) : M A := fun w => (w, inl e).

(** [try: body except Exception as e: handler e]. *)
Definition try_except {A : Type} (body : M A) (handler : exception -> M A) : M A :=
  fun w =>
    match body w with
    | (w', inl e) => handler e w'
    | (w', inr a) => (w', inr a)
    end.

(** A call into the model or the index. *)
Definition call {A : Type} (f : backend -> backend * (exception + A)) : M A :=
  fun w =>
    let '(b, r) := f (backend_of w) in
    (World b (log_of w), r).

Definition logger (lvl : level) (msg : string) : M unit :=
  fun w => (World (backend_of w) (log_of w ++ [(lvl, msg)]), inr tt).

Notation "'let*' x ':=' m 'in' k" := (bind m (fun x => k))
  (at level 10, x name, m at level 100, k at level 200).

(** *** Document builder *)

(** [if d.get(key): parts.append(fmt(d[key]))]: in the branch [d[key]] is
    the value [get] has just found. *)
Definition append_if (d : record) (key : string) (fmt : value -> string)
  (parts : list string) : list string :=
  match d !! key with
  | Some v => if truthy v then parts ++ [fmt v] else parts
  | None => parts
  end.

Definition create_document_text (quotation_item : record) : string :=
  let doc_parts := [] in
  let doc_parts := append_if quotation_item "customername" (fun v => "Customer: " +:+ str v) doc_parts in
  let doc_parts := append_if quotation_item "customeremail" (fun v => "Email: " +:+ str v) doc_parts in
  let doc_parts := append_if quotation_item "customerphone" (fun v => "Phone: " +:+ str v) doc_parts in
  let doc_parts := append_if quotation_item "quotationcode" (fun v => "Quotation Code: " +:+ str v) doc_parts in
  let doc_parts := append_if quotation_item "quptationstatus" (fun v => "Status: " +:+ str v) doc_parts in
  let doc_parts := append_if quotation_item "quotationtotalamount" (fun v => "Total Amount: " +:+ str v) doc_parts in
  let doc_parts := append_if quotation_item "itemname" (fun v => "Item: " +:+ str v) doc_parts in
  let doc_parts := append_if quotation_item "itembrand" (fun v => "Brand: " +:+ str v) doc_parts in
  let doc_parts := append_if quotation_item "itemspecifications" (fun v => "Specifications: " +:+ str v) doc_parts in
  let doc_parts := append_if quotation_item "itemquantity" (fun v => "Quantity: " +:+ str v) doc_parts in
  let doc_parts := append_if quotation_item "itemsellingprice" (fun v => "Selling Price: " +:+ str v) doc_parts in
  let doc_parts := append_if quotation_item "itemlistingprice" (fun v => "Listing Price: " +:+ str v) doc_parts in
  let doc_parts := append_if quotation_item "sellername" (fun v => "Seller: " +:+ str v) doc_parts in
  String.concat " | " doc_parts.

(** *** Index gateway *)

(** The identifier expression of [add_quotation_item]:
    [str(item.get('id', item.get('quotationcode', 'unknown')))]. *)
Definition item_id (quotation_item : record) : string :=
  str (get_or quotation_item "id" (get_or quotation_item "quotationcode" (VStr "unknown"))).

(** The keyword arguments [add_quotation_item] passes to [collection.add]. *)
Definition item_request (quotation_item : record) (doc_text : string) (emb : embedding)
  : add_request embedding :=
  {| embeddings := [emb];
     documents := [doc_text];
     metadatas := [quotation_item];
     ids := [item_id quotation_item] |}.

Definition add_quotation_item (quotation_item : record) : M unit :=
  try_except
    (let doc_text := create_document_text quotation_item in
     let* emb := call (model_encode doc_text) in
     let* _ := call (collection_add (item_request quotation_item doc_text emb)) in
     logger INFO ("Added quotation item " +:+ str (get quotation_item "id") +:+ " to vector database"))
    (fun e =>
       let* _ := logger ERROR ("Error adding quotation item: " +:+ exn_str e) in
       raise e).

(** The identifier expression of the bulk loop, [n] being [len(ids)]:
    [str(item.get('id', item.get('quotationcode', f'item_{n}')))]. *)
Definition batch_item_id (item : record) (n : nat) : string :=
  str (get_or item "id" (get_or item "quotationcode" (VStr ("item_" +:+ str_int (Z.of_nat n))))).

(** The [for item in quotation_items] loop; [acc] holds the four lists
    built so far. *)
Fixpoint bulk_collect (quotation_items : list record) (acc : add_request embedding)
  : M (add_request embedding) :=
  match quotation_items with
  | [] => ret acc
  | item :: rest =>
      let doc_text := create_document_text item in
      let documents' := documents acc ++ [doc_text] in
      let* emb := call (model_encode doc_text) in
      let embeddings' := embeddings acc ++ [emb] in
      let metadatas' := metadatas acc ++ [item] in
      let ids' := ids acc ++ [batch_item_id item (List.length (ids acc))] in
      bulk_collect rest (AddRequest embeddings' documents' metadatas' ids')
  end.

Definition bulk_add_quotation_items (quotation_items : list record) : M unit :=
  let* req := bulk_collect quotation_items (AddRequest [] [] [] []) in
  let* _ := call (collection_add req) in
  logger INFO ("Added " +:+ str_int (Z.of_nat (List.length quotation_items))
               +:+ " quotation items to vector database").

Definition query (question : string) (n_results : Z) : M query_result :=
  try_except
    (let* query_embedding := call (model_encode question) in
     let* results := call (collection_query [query_embedding] n_results) in
     ret {| q_question := question;
            q_documents := first_or_empty (res_documents results);
            q_metadatas := first_or_empty (res_metadatas results);
            q_distances := first_or_empty (res_distances results);
            q_count := Z.of_nat (List.length (first_or_empty (res_documents results))) |})
    (fun e =>
       let* _ := logger ERROR ("Error querying vector database: " +:+ exn_str e) in
       raise e).

(** *** Answer synthesizer *)

(** The body of the [for idx, (doc, metadata, distance) in enumerate(zip(...), 1)]
    loop, iterated over the zipped rows. *)
Fixpoint answer_loop (rows : list (string * record * float)) (idx : Z)
  (answer_parts : list string) : list string :=
  match rows with
  | [] => answer_parts
  | (doc, metadata, distance) :: rest =>
      let answer_parts := answer_parts ++ [nl +:+ str_int idx +:+ ". "] in
      let answer_parts := append_if metadata "quotationcode" (fun v => "Quotation " +:+ str v +:+ ": ") answer_parts in
      let answer_parts := append_if metadata "itemname" (fun v => str v +:+ " ") answer_parts in
      let answer_parts := append_if metadata "customername" (fun v => "for " +:+ str v +:+ " ") answer_parts in
      let answer_parts := append_if metadata "itemsellingprice" (fun v => "at ₹" +:+ str v +:+ " ") answer_parts in
      let answer_parts := append_if metadata "quptationstatus" (fun v => "(Status: " +:+ str v +:+ ")") answer_parts in
      answer_loop rest (idx + 1) answer_parts
  end.

Definition no_information : string :=
  "I couldn't find any relevant information for your question.".

Definition answer_header : string :=
  "Based on the quotation data, here's what I found:" +:+ nl.

Definition generate_answer (question : string) (n_results : Z) : M string :=
  let* results := query question n_results in
  if q_count results =? 0 then ret no_information
  else
    let answer_parts := [answer_header] in
    let answer_parts :=
      answer_loop (zip3 (q_documents results) (q_metadatas results) (q_distances results))
                  1 answer_parts in
    ret (String.concat "" answer_parts).


(** *** Formats *)

(** The thirteen document fields with their labels, in document order. *)
Definition document_fields : list (string * string) :=
  [("customername", "Customer"); ("customeremail", "Email"); ("customerphone", "Phone");
   ("quotationcode", "Quotation Code"); ("quptationstatus", "Status");
   ("quotationtotalamount", "Total Amount");
   ("itemname", "Item"); ("itembrand", "Brand"); ("itemspecifications", "Specifications");
   ("itemquantity", "Quantity");
   ("itemsellingprice", "Selling Price"); ("itemlistingprice", "Listing Price");
   ("sellername", "Seller")].

(** The inclusion test of the builder: [d.get(key)] is true. *)
Definition included (d : record) (key : string) : bool := truthy (get d key).

(** ["<Label>: <value>"]. *)
Definition labelled (d : record) (field : string * string) : string :=
  snd field +:+ ": " +:+ str (get d (fst field)).

(** The five phrases of an answer line, in line order. *)
Definition answer_fields : list (string * (string -> string)) :=
  [("quotationcode", fun code => "Quotation " +:+ code +:+ ": ");
   ("itemname", fun name => name +:+ " ");
   ("customername", fun name => "for " +:+ name +:+ " ");
   ("itemsellingprice", fun price => "at ₹" +:+ price +:+ " ");
   ("quptationstatus", fun status => "(Status: " +:+ status +:+ ")")].

Definition phrase (metadata : record) (field : string * (string -> string)) : string :=
  snd field (str (get metadata (fst field))).

(** The phrases of the fields that pass [present], one after the other. *)
Definition answer_line (present : record -> string -> bool) (metadata : record) : string :=
  String.concat ""
    (map (phrase metadata)
         (List.filter (fun field => present metadata (fst field)) answer_fields)).

(** ["\n<n>. "] followed by the line. *)
Definition numbered_line (present : record -> string -> bool) (n : Z) (metadata : record)
  : string :=
  nl +:+ str_int n +:+ ". " +:+ answer_line present metadata.

(** What one pass of the loop adds to the answer for [row], numbered [idx]. *)
Definition entry (idx : Z) (row : string * record * float) : string :=
  String.concat "" (answer_loop [row] idx []).

(** *** Properties *)

Lemma append_if_spec (d : record) (key : string) (fmt : value -> string) (parts : list string) :
  append_if d key fmt parts = parts ++ (if included d key then [fmt (get d key)] else []).
Proof.
  unfold append_if, included, get.
  destruct (d !! key) as [v|]; simpl.
  - destruct (truthy v); [reflexivity | by rewrite app_nil_r].
  - by rewrite app_nil_r.
Qed.

Lemma map_filter_cons {A B : Type} (f : A -> B) (p : A -> bool) (x : A) (l : list A) :
  map f (List.filter p (x :: l)) = (if p x then [f x] else []) ++ map f (List.filter p l).
Proof. simpl. by destruct (p x). Qed.

Lemma filter_none {A : Type} (p : A -> bool) (l : list A) :
  (forall x, In x l -> p x = false) -> List.filter p l = [].
Proof.
  induction l as [|x l IH]; intros Hall; [reflexivity|].
  simpl. rewrite (Hall x (or_introl eq_refl)). apply IH.
  intros y Hy. apply Hall. by right.
Qed.

Lemma create_document_text_fields (quotation_item : record) :
  create_document_text quotation_item =
  String.concat " | "
    (map (labelled quotation_item)
         (List.filter (fun field => included quotation_item (fst field)) document_fields)).
Proof.
  unfold create_document_text, document_fields.
  rewrite !append_if_spec, !map_filter_cons. simpl List.filter. simpl map.
  unfold labelled. simpl fst. simpl snd.
  rewrite <- !app_assoc, app_nil_r. reflexivity.
Qed.

(** C1. The built document is the labelled rendering of the included
    fields, in the fixed order customer name, email, phone, quotation
    code, status, total amount, item name, brand, specifications,
    quantity, selling price, listing price, seller name, joined with
    [" | "]; the record [{id: 1, customername: "Acme", itemname:
    "Bearing", itemsellingprice: 500}] gives
    ["Customer: Acme | Item: Bearing | Selling Price: 500"]. *)
Theorem create_document_text_format :
  (forall quotation_item : record,
     create_document_text quotation_item =
     String.concat " | "
       (map (labelled quotation_item)
            (List.filter (fun field => included quotation_item (fst field)) document_fields)))
  /\ create_document_text
       (list_to_map [("id", VInt 1); ("customername", VStr "Acme");
                     ("itemname", VStr "Bearing"); ("itemsellingprice", VInt 500)])
     = "Customer: Acme | Item: Bearing | Selling Price: 500".
Proof.
  split.
  - apply create_document_text_fields.
  - vm_compute. reflexivity.
Qed.

Lemma get_delete_eq (d : record) (key : string) : get (delete key d) key = VNone.
Proof. unfold get. by rewrite lookup_delete_eq. Qed.

Lemma get_delete_ne (d : record) (key key' : string) :
  key <> key' -> get (delete key d) key' = get d key'.
Proof. intros Hne. unfold get. by rewrite lookup_delete_ne. Qed.

Lemma rendered_fields_delete (d : record) (key : string) (fields : list (string * string)) :
  included d key = false ->
  map (labelled (delete key d))
      (List.filter (fun field => included (delete key d) (fst field)) fields)
  = map (labelled d) (List.filter (fun field => included d (fst field)) fields).
Proof.
  intros Hkey. induction fields as [|[k lab] fields IH]; [reflexivity|].
  rewrite !map_filter_cons, IH. f_equal. simpl fst.
  destruct (decide (key = k)) as [<-|Hne].
  - unfold included at 1. rewrite get_delete_eq, Hkey. reflexivity.
  - unfold included, labelled. simpl fst. rewrite (get_delete_ne d key k Hne). reflexivity.
Qed.

Lemma zero_not_truthy (v : value) : is_zero v = true -> truthy v = false.
Proof. destruct v; simpl; try discriminate; intros ->; reflexivity. Qed.

(** C2, as the code has it.  A document field whose value is exactly zero
    ([0], [0.0] or [-0.0]) fails the inclusion test, and the document is
    the one built from the record without that field: zero is treated as
    absent and nothing is rendered for it. *)
Theorem zero_field_omitted (quotation_item : record) (key : string) (v : value) :
  quotation_item !! key = Some v ->
  is_zero v = true ->
  included quotation_item key = false
  /\ create_document_text quotation_item = create_document_text (delete key quotation_item).
Proof.
  intros Hlookup Hzero.
  assert (Hout : included quotation_item key = false).
  { unfold included, get. rewrite Hlookup. simpl. by apply zero_not_truthy. }
  split; [exact Hout|].
  rewrite !create_document_text_fields. f_equal.
  symmetry. by apply rendered_fields_delete.
Qed.

Lemma add_quotation_item_run (quotation_item : record) (w : world) :
  add_quotation_item quotation_item w =
  let doc_text := create_document_text quotation_item in
  let failed := fun b e =>
    (World b (log_of w ++ [(ERROR, "Error adding quotation item: " +:+ exn_str e)]), inl e) in
  match model_encode doc_text (backend_of w) with
  | (b, inl e) => failed b e
  | (b, inr emb) =>
      match collection_add (item_request quotation_item doc_text emb) b with
      | (b', inl e) => failed b' e
      | (b', inr _) =>
          (World b' (log_of w ++ [(INFO, "Added quotation item " +:+ str (get quotation_item "id")
                                         +:+ " to vector database")]), inr tt)
      end
  end.
Proof.
  unfold add_quotation_item, try_except, bind, call, logger, raise. simpl.
  destruct (model_encode _ _) as [b [e|emb]]; simpl; [reflexivity|].
  destruct (collection_add _ _) as [b' [e|[]]]; reflexivity.
Qed.

Lemma bulk_collect_ids (quotation_items : list record) :
  forall (acc : add_request embedding) (w w' : world) (req : add_request embedding),
    bulk_collect quotation_items acc w = (w', inr req) ->
    ids req = ids acc ++
      imap (fun i item => batch_item_id item (List.length (ids acc) + i)) quotation_items.
Proof.
  induction quotation_items as [|item rest IH]; intros acc w w' req Hrun.
  - inversion Hrun. by rewrite app_nil_r.
  - simpl in Hrun. unfold bind, call in Hrun.
    destruct (model_encode _ _) as [b [e|emb]]; [discriminate|].
    apply IH in Hrun. rewrite Hrun. simpl ids.
    rewrite imap_cons, <- app_assoc. simpl. rewrite Nat.add_0_r. do 2 f_equal.
    apply imap_ext. intros i x _. simpl. f_equal. rewrite length_app. simpl. lia.
Qed.

(** The loop completes whenever the model embeds every document. *)
Lemma bulk_collect_total (quotation_items : list record) :
  (forall text b, exists b' emb, model_encode text b = (b', inr emb)) ->
  forall (acc : add_request embedding) (w : world),
    exists w' req, bulk_collect quotation_items acc w = (w', inr req).
Proof.
  intros Hok. induction quotation_items as [|item rest IH]; intros acc w.
  - by exists w, acc.
  - simpl. unfold bind, call.
    destruct (Hok (create_document_text item) (backend_of w)) as (b' & emb & ->).
    apply IH.
Qed.

Lemma str_int_inj (a b : Z) : str_int a = str_int b -> a = b.
Proof.
  unfold str_int. intros Heq.
  assert (Hnn : forall z, Z.to_int z <> Decimal.Pos Decimal.Nil
                          /\ Z.to_int z <> Decimal.Neg Decimal.Nil).
  { intros [|p|p]; simpl; split; try discriminate;
      intros [= Hp]; by apply DecimalPos.Unsigned.to_uint_nonnil in Hp. }
  apply DecimalZ.to_int_inj.
  destruct (Hnn a) as [Ha1 Ha2], (Hnn b) as [Hb1 Hb2].
  pose proof (NilZero.isi _ Ha1 Ha2) as Ia. pose proof (NilZero.isi _ Hb1 Hb2) as Ib.
  rewrite Heq in Ia. congruence.
Qed.

Lemma fallback_id (item : record) (n : nat) :
  item !! "id" = None -> item !! "quotationcode" = None ->
  batch_item_id item n = "item_" +:+ str_int (Z.of_nat n).
Proof. intros Hid Hcode. unfold batch_item_id, get_or. by rewrite Hid, Hcode. Qed.

Lemma fallback_id_inj (i j : nat) :
  "item_" +:+ str_int (Z.of_nat i) = "item_" +:+ str_int (Z.of_nat j) -> i = j.
Proof.
  intros Heq. cbv beta iota delta [String.append] in Heq. fold String.append in Heq.
  injection Heq as Heq. apply str_int_inj in Heq. lia.
Qed.

(** C3, as the code has it.  [add_quotation_item] sends the index
    [str(id)] when the record holds an [id] (the key is there and its
    value is not [None]), and, when the key [id] is absent,
    [str(quotationcode)] when the record holds a [quotationcode].  In
    [bulk_add_quotation_items] the same holds position by position; a
    record with neither key at position [i] gets ["item_<i>"], and two
    records with neither key at different positions get different
    identifiers.  Nothing is stated for a key that maps to [None]. *)
Theorem identifier_precedence :
  (forall (d : record) (doc : string) (emb : embedding),
     has_value d "id" = true ->
     ids (item_request d doc emb) = [str (get d "id")])
  /\ (forall (d : record) (doc : string) (emb : embedding),
        d !! "id" = None -> has_value d "quotationcode" = true ->
        ids (item_request d doc emb) = [str (get d "quotationcode")])
  /\ (forall (quotation_items : list record) (w w' : world) (req : add_request embedding),
        bulk_collect quotation_items (AddRequest [] [] [] []) w = (w', inr req) ->
        forall (i : nat) (item : record),
          quotation_items !! i = Some item ->
          (has_value item "id" = true -> ids req !! i = Some (str (get item "id")))
          /\ (item !! "id" = None -> has_value item "quotationcode" = true ->
              ids req !! i = Some (str (get item "quotationcode")))
          /\ (item !! "id" = None -> item !! "quotationcode" = None ->
              ids req !! i = Some ("item_" +:+ str_int (Z.of_nat i))
              /\ forall (j : nat) (item' : record),
                   quotation_items !! j = Some item' ->
                   item' !! "id" = None -> item' !! "quotationcode" = None ->
                   i <> j -> ids req !! j <> ids req !! i)).
Proof.
  split; [|split].
  - intros d doc emb Hid. simpl. unfold item_id, get_or, get.
    unfold has_value in Hid. by destruct (d !! "id").
  - intros d doc emb Hid Hcode. simpl. unfold item_id, get_or, get. rewrite Hid. simpl.
    unfold has_value in Hcode. by destruct (d !! "quotationcode").
  - intros items w w' req Hrun.
    apply bulk_collect_ids in Hrun. simpl in Hrun.
    assert (Hpos : forall k it, items !! k = Some it ->
                     ids req !! k = Some (batch_item_id it k)).
    { intros k it Hk. by rewrite Hrun, list_lookup_imap, Hk. }
    assert (Hat : forall k it, items !! k = Some it ->
                    it !! "id" = None -> it !! "quotationcode" = None ->
                    ids req !! k = Some ("item_" +:+ str_int (Z.of_nat k))).
    { intros k it Hk Hid Hcode. by rewrite (Hpos k it Hk), (fallback_id it k Hid Hcode). }
    intros i item Hi. split; [|split].
    + intros Hid. rewrite (Hpos i item Hi). unfold batch_item_id, get_or, get.
      unfold has_value in Hid. by destruct (item !! "id").
    + intros Hid Hcode. rewrite (Hpos i item Hi). unfold batch_item_id, get_or, get.
      rewrite Hid. simpl. unfold has_value in Hcode. by destruct (item !! "quotationcode").
    + intros Hid Hcode. split; [by eapply Hat|].
      intros j item' Hj Hid' Hcode' Hne.
      rewrite (Hat i item Hi Hid Hcode), (Hat j item' Hj Hid' Hcode').
      intros Heq. apply Hne, fallback_id_inj. congruence.
Qed.

(** C7, as the code has it.  When the embedding call or the index call
    inside [add_quotation_item] raises [e], the caller gets that same
    exception [e], class and text unchanged, after one ERROR record
    ["Error adding quotation item: <str(e)>"] has been logged; nothing is
    wrapped and no identifier is attached. *)
Theorem add_quotation_item_reraises (quotation_item : record) (w : world) (e : exception) :
  (exists b, model_encode (create_document_text quotation_item) (backend_of w) = (b, inl e))
  \/ (exists b emb b',
        model_encode (create_document_text quotation_item) (backend_of w) = (b, inr emb)
        /\ collection_add
             (item_request quotation_item (create_document_text quotation_item) emb) b
           = (b', inl e)) ->
  exists w',
    add_quotation_item quotation_item w = (w', inl e)
    /\ log_of w' = log_of w ++ [(ERROR, "Error adding quotation item: " +:+ exn_str e)].
Proof.
  intros Hfail. rewrite add_quotation_item_run. simpl.
  destruct Hfail as [(b & ->)|(b & emb & b' & -> & ->)]; eauto.
Qed.

(** C9. When each of the thirteen document fields is absent, empty or
    zero the built document is the empty string, and
    [add_quotation_item] does not reject the record: it embeds [""] and
    adds the document [""] under the record's identifier, and returns
    normally when the model and the index do. *)
Theorem blank_record_is_indexed (quotation_item : record) :
  forallb (fun field => absent_empty_or_zero (quotation_item !! fst field)) document_fields = true ->
  create_document_text quotation_item = ""
  /\ forall (w : world) (b b' : backend) (emb : embedding),
       model_encode "" (backend_of w) = (b, inr emb) ->
       collection_add (AddRequest [emb] [""] [quotation_item] [item_id quotation_item]) b
         = (b', inr tt) ->
       add_quotation_item quotation_item w =
       (World b' (log_of w ++ [(INFO, "Added quotation item " +:+ str (get quotation_item "id")
                                      +:+ " to vector database")]), inr tt).
Proof.
  intros Hblank.
  assert (Hdoc : create_document_text quotation_item = "").
  { rewrite create_document_text_fields.
    replace (List.filter _ document_fields) with (@nil (string * string)); [reflexivity|].
    symmetry. apply filter_none.
    rewrite forallb_forall in Hblank. intros field Hin.
    specialize (Hblank field Hin). unfold included, get.
    destruct (quotation_item !! field.1) as [[| n | x | s]|]; simpl in *;
      try reflexivity; by rewrite Hblank. }
  split; [exact Hdoc|].
  intros w b b' emb Hencode Hadd.
  rewrite add_quotation_item_run, Hdoc. simpl.
  rewrite Hencode. unfold item_request. by rewrite Hadd.
Qed.

(** C10. The identifier is chosen by key presence: a record whose key
    [id] maps to [None] is indexed under ["None"], whatever its
    [quotationcode]; and [item.dict()] has the key [id] mapped to [None]
    for every request that omits [id]. *)
Theorem none_id_shadows_quotationcode :
  (forall (d : record) (doc : string) (emb : embedding),
     d !! "id" = Some VNone -> ids (item_request d doc emb) = ["None"])
  /\ (forall item : QuotationItemCreate,
        id item = None -> dict item !! "id" = Some VNone).
Proof.
  split.
  - intros d doc emb Hid. simpl. unfold item_id, get_or. by rewrite Hid.
  - intros item Hid. unfold dict. rewrite list_to_map_cons, lookup_insert_eq.
    by rewrite Hid.
Qed.

Lemma query_run (question : string) (n_results : Z) (w : world) :
  query question n_results w =
  let failed := fun b e =>
    (World b (log_of w ++ [(ERROR, "Error querying vector database: " +:+ exn_str e)]), inl e) in
  match model_encode question (backend_of w) with
  | (b, inl e) => failed b e
  | (b, inr emb) =>
      match collection_query [emb] n_results b with
      | (b', inl e) => failed b' e
      | (b', inr results) =>
          (World b' (log_of w),
           inr {| q_question := question;
                  q_documents := first_or_empty (res_documents results);
                  q_metadatas := first_or_empty (res_metadatas results);
                  q_distances := first_or_empty (res_distances results);
                  q_count := Z.of_nat (List.length (first_or_empty (res_documents results))) |})
      end
  end.
Proof.
  unfold query, try_except, bind, call, logger, raise, ret. simpl.
  destruct (model_encode _ _) as [b [e|emb]]; simpl; [reflexivity|].
  destruct (collection_query _ _ _) as [b' [e|results]]; reflexivity.
Qed.

Lemma query_count (question : string) (n_results : Z) (w w' : world) (r : query_result) :
  query question n_results w = (w', inr r) ->
  q_count r = Z.of_nat (List.length (q_documents r)).
Proof.
  rewrite query_run. simpl.
  destruct (model_encode _ _) as [b [e|emb]]; [discriminate|].
  destruct (collection_query _ _ _) as [b' [e|results]]; [discriminate|].
  intros [= _ <-]. reflexivity.
Qed.

Lemma generate_answer_run (question : string) (n_results : Z) (w w' : world) (r : query_result) :
  query question n_results w = (w', inr r) ->
  generate_answer question n_results w =
  (w', inr (if q_count r =? 0 then no_information
            else String.concat ""
                   (answer_loop (zip3 (q_documents r) (q_metadatas r) (q_distances r))
                                1 [answer_header]))).
Proof.
  intros Hq. unfold generate_answer, bind. rewrite Hq.
  destruct (q_count r =? 0); reflexivity.
Qed.

(** C4. When the retrieval step returns no documents, [generate_answer]
    returns the fixed sentence, for every question, and returns normally. *)
Theorem generate_answer_no_results (question : string) (n_results : Z) (w w' : world)
  (r : query_result) :
  query question n_results w = (w', inr r) ->
  q_documents r = [] ->
  generate_answer question n_results w =
  (w', inr "I couldn't find any relevant information for your question.").
Proof.
  intros Hq Hempty. rewrite (generate_answer_run _ _ _ _ _ Hq).
  rewrite (query_count _ _ _ _ _ Hq), Hempty. reflexivity.
Qed.

Lemma string_app_nil_r (x : string) : x +:+ "" = x.
Proof.
  induction x as [|c x IH]; [reflexivity|].
  change (String c (x +:+ "") = String c x). by rewrite IH.
Qed.

Lemma string_app_assoc (a b c : string) : (a +:+ b) +:+ c = a +:+ (b +:+ c).
Proof.
  induction a as [|ch a IH]; [reflexivity|].
  change (String ch ((a +:+ b) +:+ c) = String ch (a +:+ (b +:+ c))). by rewrite IH.
Qed.

Lemma concat_empty_cons (x : string) (l : list string) :
  String.concat "" (x :: l) = x +:+ String.concat "" l.
Proof.
  destruct l as [|y l]; [|reflexivity].
  simpl. by rewrite string_app_nil_r.
Qed.

Lemma concat_empty_app (l1 l2 : list string) :
  String.concat "" (l1 ++ l2) = String.concat "" l1 +:+ String.concat "" l2.
Proof.
  induction l1 as [|x l1 IH]; [reflexivity|].
  rewrite <- app_comm_cons, !concat_empty_cons, IH. by rewrite string_app_assoc.
Qed.

Lemma answer_loop_cons (row : string * record * float) (rest : list (string * record * float))
  (idx : Z) (parts : list string) :
  answer_loop (row :: rest) idx parts
  = answer_loop rest (idx + 1) (parts ++ answer_loop [row] idx []).
Proof.
  destruct row as [[doc metadata] distance]. simpl.
  rewrite !append_if_spec. f_equal. rewrite <- !app_assoc. reflexivity.
Qed.

Lemma answer_loop_entries (rows : list (string * record * float)) :
  forall (idx : Z) (parts : list string),
    String.concat "" (answer_loop rows idx parts)
    = String.concat "" parts
      +:+ String.concat "" (imap (fun i row => entry (idx + Z.of_nat i) row) rows).
Proof.
  induction rows as [|row rest IH]; intros idx parts.
  - simpl. by rewrite string_app_nil_r.
  - rewrite answer_loop_cons, IH, concat_empty_app, imap_cons, concat_empty_cons.
    rewrite string_app_assoc. unfold entry at 2. rewrite Z.add_0_r. do 2 f_equal.
    f_equal. apply imap_ext. intros i x _. simpl. f_equal. lia.
Qed.

Lemma zip3_rows (rows : list (string * record * float)) :
  zip3 (map (fun row => row.1.1) rows) (map (fun row => row.1.2) rows) (map snd rows) = rows.
Proof.
  induction rows as [|[[doc metadata] distance] rows IH]; [reflexivity|].
  simpl. by rewrite IH.
Qed.

Lemma entry_numbered_line (idx : Z) (doc : string) (metadata : record) (distance : float) :
  entry idx (doc, metadata, distance) = numbered_line included idx metadata.
Proof.
  unfold entry, numbered_line, answer_line, answer_fields. simpl answer_loop.
  rewrite !append_if_spec, !map_filter_cons. simpl List.filter. simpl map.
  unfold phrase. simpl fst. simpl snd.
  rewrite <- !app_assoc, app_nil_r. simpl app.
  rewrite concat_empty_cons. by rewrite !string_app_assoc.
Qed.

(** C5. For a non-empty ranked result sequence [rows] the answer is the
    header followed by one entry per row, in the order of [rows]: the
    row at position [i] (from 0) gives the entry numbered [i + 1], and
    every entry opens with its number. *)
Theorem answer_preserves_ranking (question : string) (n_results : Z) (w w' : world)
  (r : query_result) (rows : list (string * record * float)) :
  query question n_results w = (w', inr r) ->
  rows <> [] ->
  q_documents r = map (fun row => row.1.1) rows ->
  q_metadatas r = map (fun row => row.1.2) rows ->
  q_distances r = map snd rows ->
  generate_answer question n_results w =
  (w', inr (answer_header
            +:+ String.concat "" (imap (fun i row => entry (Z.of_nat i + 1) row) rows)))
  /\ forall (i : nat) (row : string * record * float),
       rows !! i = Some row ->
       exists line, entry (Z.of_nat i + 1) row = nl +:+ str_int (Z.of_nat i + 1) +:+ ". " +:+ line.
Proof.
  intros Hq Hne Hdocs Hmetas Hdists. split.
  - rewrite (generate_answer_run _ _ _ _ _ Hq).
    rewrite (query_count _ _ _ _ _ Hq), Hdocs, Hmetas, Hdists, zip3_rows.
    rewrite length_map.
    destruct rows as [|row rows]; [congruence|].
    replace (Z.of_nat (List.length (row :: rows)) =? 0) with false
      by (symmetry; apply Z.eqb_neq; simpl List.length; lia).
    rewrite answer_loop_entries.
    change (String.concat "" [answer_header]) with answer_header.
    do 4 f_equal. apply imap_ext. intros i x _. f_equal. lia.
  - intros i [[doc metadata] distance] _.
    exists (answer_line included metadata). apply entry_numbered_line.
Qed.

(** C6, as the code has it.  The entry of a result is ["\n<n>. "]
    followed by the phrases ["Quotation <code>: "], ["<itemname> "],
    ["for <customername> "], ["at ₹<sellingprice> "] and
    ["(Status: <status>)"], in this order, of exactly those metadata
    fields whose value passes the truth test (present, not [None], not
    empty, not zero); any other field adds nothing, and nothing else is
    inserted. *)
Theorem answer_entry_format (idx : Z) (doc : string) (metadata : record) (distance : float) :
  entry idx (doc, metadata, distance)
  = nl +:+ str_int idx +:+ ". "
    +:+ String.concat ""
          (map (phrase metadata)
               (List.filter (fun field => truthy (get metadata (fst field))) answer_fields)).
Proof. apply entry_numbered_line. Qed.

Lemma zip3_metadata {A : Type} (docs : list string) (metas : list record) :
  forall (d1 d2 : list A),
    List.length d1 = List.length d2 ->
    map (fun row => row.1) (zip3 docs metas d1) = map (fun row => row.1) (zip3 docs metas d2).
Proof.
  revert metas. induction docs as [|doc docs IH]; intros metas d1 d2 Hlen; [reflexivity|].
  destruct metas as [|m metas]; [reflexivity|].
  destruct d1 as [|x d1], d2 as [|y d2]; try discriminate; [reflexivity|].
  simpl. f_equal. apply IH. by injection Hlen.
Qed.

Lemma answer_loop_ignores_distance (rows1 rows2 : list (string * record * float)) :
  map (fun row => row.1) rows1 = map (fun row => row.1) rows2 ->
  forall (idx : Z) (parts : list string),
    answer_loop rows1 idx parts = answer_loop rows2 idx parts.
Proof.
  revert rows2. induction rows1 as [|[[doc1 m1] x1] rows1 IH];
    intros [|[[doc2 m2] x2] rows2] Heq idx parts; try discriminate; [reflexivity|].
  simpl in Heq. injection Heq as Hdoc Hm Hrest. subst.
  simpl. by apply IH.
Qed.

(** C8. Two retrieval results with the same documents, the same metadatas
    and as many distances give the same answer, whatever the distance
    values are: no distance reaches the answer. *)
Theorem answer_ignores_distances (question1 question2 : string) (n1 n2 : Z)
  (w1 w1' w2 w2' : world) (r1 r2 : query_result) :
  query question1 n1 w1 = (w1', inr r1) ->
  query question2 n2 w2 = (w2', inr r2) ->
  q_documents r1 = q_documents r2 ->
  q_metadatas r1 = q_metadatas r2 ->
  List.length (q_distances r1) = List.length (q_distances r2) ->
  snd (generate_answer question1 n1 w1) = snd (generate_answer question2 n2 w2).
Proof.
  intros Hq1 Hq2 Hdocs Hmetas Hlen.
  rewrite (generate_answer_run _ _ _ _ _ Hq1), (generate_answer_run _ _ _ _ _ Hq2).
  rewrite (query_count _ _ _ _ _ Hq1), (query_count _ _ _ _ _ Hq2).
  rewrite Hdocs, Hmetas. simpl. do 2 f_equal.
  destruct (_ =? 0); [reflexivity|]. f_equal.
  apply answer_loop_ignores_distance. by apply zip3_metadata.
Qed.

End Service.

Arguments World {backend} _ _.
Arguments backend_of {backend} _.
Arguments log_of {backend} _.

(** ** Instances on the stub *)

Abbreviation stub_add_quotation_item :=
  (add_quotation_item Stub.float_repr nat Stub.state Stub.encode Stub.add).
Abbreviation stub_bulk_collect :=
  (bulk_collect Stub.float_repr nat Stub.state Stub.encode).
Abbreviation stub_bulk_add_quotation_items :=
  (bulk_add_quotation_items Stub.float_repr nat Stub.state Stub.encode Stub.add).
Abbreviation stub_query := (query nat Stub.state Stub.encode Stub.query).
Abbreviation stub_generate_answer :=
  (generate_answer Stub.float_repr nat Stub.state Stub.encode Stub.query).

Example str_int_examples : str_int 500 = "500" /\ str_int 0 = "0" /\ str_int (-12) = "-12".
Proof. repeat split. Qed.

Example truthy_zero_floats :
  truthy (VFloat 0%float) = false /\ truthy (VFloat (-0)%float) = false
  /\ truthy (VFloat nan) = true.
Proof. repeat split. Qed.

Example stub_float_repr_examples :
  Stub.float_repr 500%float = "500.0" /\ Stub.float_repr 0%float = "0.0"
  /\ Stub.float_repr (-0)%float = "-0.0".
Proof. repeat split; vm_compute; reflexivity. Qed.

(** The same record through the facade: pydantic stores the price as a
    float, which renders with its fraction. *)
Example acme_document_with_float_price :
  create_document_text Stub.float_repr (<["itemsellingprice" := VFloat 500%float]> acme_record)
  = "Customer: Acme | Item: Bearing | Selling Price: 500.0".
Proof. vm_compute. reflexivity. Qed.

(** C2 on a record: [quotationtotalamount = 0] is in the record, and the
    document has no ["Total Amount: 0"] part. *)
Lemma zero_amount_not_rendered :
  zero_amount_record !! "quotationtotalamount" = Some (VInt 0)
  /\ create_document_text Stub.float_repr zero_amount_record = "Customer: Acme"
  /\ contains "Total Amount: 0" (create_document_text Stub.float_repr zero_amount_record) = false.
Proof. repeat split; vm_compute; reflexivity. Qed.

Lemma zero_field_omitted_witness :
  included zero_amount_record "quotationtotalamount" = false
  /\ create_document_text Stub.float_repr zero_amount_record
     = create_document_text Stub.float_repr (delete "quotationtotalamount" zero_amount_record).
Proof.
  apply (zero_field_omitted Stub.float_repr zero_amount_record "quotationtotalamount" (VInt 0));
    reflexivity.
Defined.

(** C3 on a batch: the second record has neither key and gets
    ["item_1"], which is also the identifier of the first record. *)
Lemma fallback_identifier_collides :
  (exists item : record,
     colliding_batch !! 1%nat = Some item
     /\ item !! "id" = None /\ item !! "quotationcode" = None)
  /\ map ids (Stub.added (backend_of
        (stub_bulk_add_quotation_items colliding_batch (World Stub.healthy [])).1))
     = [["item_1"; "item_1"]].
Proof.
  split.
  - eexists. repeat split; vm_compute; reflexivity.
  - vm_compute. reflexivity.
Qed.

Lemma identifier_precedence_witness :
  ids (item_request Stub.float_repr nat
         (list_to_map [("id", VInt 7); ("quotationcode", VStr "Q1")]) "doc" 0%nat) = ["7"]
  /\ ids (item_request Stub.float_repr nat
            (list_to_map [("quotationcode", VStr "Q1")]) "doc" 0%nat) = ["Q1"]
  /\ (stub_bulk_collect anonymous_batch (AddRequest [] [] [] []) (World Stub.healthy [])).2
     = inr (AddRequest [13%nat; 18%nat; 10%nat]
              ["Item: Bearing"; "Quotation Code: Q1"; "Item: Seal"]
              anonymous_batch ["item_0"; "7"; "item_2"])
  /\ ["item_0"; "7"; "item_2"] !! 1%nat = Some "7"
  /\ ["item_0"; "7"; "item_2"] !! 2%nat <> ["item_0"; "7"; "item_2"] !! 0%nat.
Proof.
  destruct (identifier_precedence Stub.float_repr nat Stub.state Stub.encode)
    as (Hid & Hcode & Hbulk).
  pose proof (Hbulk anonymous_batch (World Stub.healthy []) (World Stub.healthy [])
                (AddRequest [13%nat; 18%nat; 10%nat]
                   ["Item: Bearing"; "Quotation Code: Q1"; "Item: Seal"]
                   anonymous_batch ["item_0"; "7"; "item_2"])
                ltac:(vm_compute; reflexivity)) as Hpos.
  split; [|split; [|split; [|split]]].
  - exact (Hid (list_to_map [("id", VInt 7); ("quotationcode", VStr "Q1")]) "doc" 0%nat
             eq_refl).
  - exact (Hcode (list_to_map [("quotationcode", VStr "Q1")]) "doc" 0%nat eq_refl eq_refl).
  - vm_compute. reflexivity.
  - destruct (Hpos 1%nat (list_to_map [("id", VInt 7); ("quotationcode", VStr "Q1")]))
      as [Hheld _]; [reflexivity|].
    exact (Hheld eq_refl).
  - destruct (Hpos 0%nat (list_to_map [("itemname", VStr "Bearing")])) as (_ & _ & Hneither);
      [reflexivity|].
    destruct Hneither as [_ Hother]; [vm_compute; reflexivity | vm_compute; reflexivity |].
    apply (Hother 2%nat (list_to_map [("itemname", VStr "Seal")]));
      [reflexivity | vm_compute; reflexivity | vm_compute; reflexivity | discriminate].
Defined.

(** The identifiers as the index receives them. *)
Example add_quotation_item_sends_id :
  map ids (Stub.added (backend_of
    (stub_add_quotation_item (list_to_map [("id", VInt 7); ("quotationcode", VStr "Q1")])
       (World Stub.healthy [])).1)) = [["7"]]
  /\ map ids (Stub.added (backend_of
       (stub_add_quotation_item (list_to_map [("quotationcode", VStr "Q1")])
          (World Stub.healthy [])).1)) = [["Q1"]]
  /\ map ids (Stub.added (backend_of
       (stub_add_quotation_item (dict coded_item) (World Stub.healthy [])).1)) = [["None"]].
Proof. repeat split; vm_compute; reflexivity. Qed.

Lemma generate_answer_no_results_witness :
  stub_generate_answer "any bearings?" 5 (World Stub.healthy [])
  = (World Stub.healthy [],
     inr "I couldn't find any relevant information for your question.").
Proof.
  apply (generate_answer_no_results Stub.float_repr nat Stub.state Stub.encode Stub.query
           "any bearings?" 5 (World Stub.healthy []) (World Stub.healthy [])
           (QueryResultDict "any bearings?" [] [] [] 0)); reflexivity.
Defined.

Lemma answer_preserves_ranking_witness :
  stub_generate_answer "bearings" 5 (World (serving ranked_rows) [])
  = (World (serving ranked_rows) [],
     inr (answer_header
          +:+ String.concat ""
                (imap (fun i row => entry Stub.float_repr (Z.of_nat i + 1) row) ranked_rows)))
  /\ forall (i : nat) (row : string * record * float),
       ranked_rows !! i = Some row ->
       exists line,
         entry Stub.float_repr (Z.of_nat i + 1) row
         = nl +:+ str_int (Z.of_nat i + 1) +:+ ". " +:+ line.
Proof.
  apply (answer_preserves_ranking Stub.float_repr nat Stub.state Stub.encode Stub.query
           "bearings" 5 (World (serving ranked_rows) []) (World (serving ranked_rows) [])
           (QueryResultDict "bearings" (map (fun row => row.1.1) ranked_rows)
              (map (fun row => row.1.2) ranked_rows) (map snd ranked_rows) 3) ranked_rows);
    [reflexivity | discriminate | reflexivity | reflexivity | reflexivity].
Defined.

(** The answer for [A, B, C]: entry 1 is A, entry 2 is B, entry 3 is C. *)
Example ranked_answer_text :
  (stub_generate_answer "bearings" 5 (World (serving ranked_rows) [])).2
  = inr ("Based on the quotation data, here's what I found:" +:+ nl
         +:+ nl +:+ "1. Quotation Q1: Bearing for Acme at ₹500 (Status: open)"
         +:+ nl +:+ "2. Seal "
         +:+ nl +:+ "3. Quotation Q3: (Status: sent)").
Proof. vm_compute. reflexivity. Qed.

(** C6 on a result: the metadata holds [itemsellingprice = 0.0], and the
    entry has no price phrase. *)
Lemma zero_price_phrase_missing :
  has_value unpriced "itemsellingprice" = true
  /\ entry Stub.float_repr 1 ("Item: Bearing", unpriced, 0.25%float) = nl +:+ "1. Bearing "
  /\ numbered_line Stub.float_repr has_value 1 unpriced = nl +:+ "1. Bearing at ₹0.0 "
  /\ entry Stub.float_repr 1 ("Item: Bearing", unpriced, 0.25%float)
     <> numbered_line Stub.float_repr has_value 1 unpriced.
Proof.
  repeat split; try (vm_compute; reflexivity).
  apply String.eqb_neq. vm_compute. reflexivity.
Qed.

(** C7 on the stub: the model raises a [RuntimeError], and that is what
    the caller of [add_quotation_item] gets. *)
Lemma embedding_failure_not_wrapped :
  (stub_add_quotation_item acme_record (World broken_model [])).2 = inl model_down
  /\ exn_class model_down <> "IndexWriteError"
  /\ contains (item_id Stub.float_repr acme_record) (exn_str model_down) = false.
Proof.
  repeat split; try (vm_compute; reflexivity).
  apply String.eqb_neq. vm_compute. reflexivity.
Qed.

Lemma add_quotation_item_reraises_witness :
  exists w',
    stub_add_quotation_item acme_record (World broken_model []) = (w', inl model_down)
    /\ log_of w' = [(ERROR, "Error adding quotation item: model unavailable")].
Proof.
  apply (add_quotation_item_reraises Stub.float_repr nat Stub.state Stub.encode Stub.add
           acme_record (World broken_model []) model_down).
  left. exists broken_model. reflexivity.
Defined.

Lemma answer_ignores_distances_witness :
  (stub_generate_answer "bearings" 5 (World (serving ranked_rows) [])).2
  = (stub_generate_answer "bearings" 5 (World (serving rescored_rows) [])).2.
Proof.
  apply (answer_ignores_distances Stub.float_repr nat Stub.state Stub.encode Stub.query
           "bearings" "bearings" 5 5
           (World (serving ranked_rows) []) (World (serving ranked_rows) [])
           (World (serving rescored_rows) []) (World (serving rescored_rows) [])
           (QueryResultDict "bearings" (map (fun row => row.1.1) ranked_rows)
              (map (fun row => row.1.2) ranked_rows) (map snd ranked_rows) 3)
           (QueryResultDict "bearings" (map (fun row => row.1.1) rescored_rows)
              (map (fun row => row.1.2) rescored_rows) (map snd rescored_rows) 3));
    reflexivity.
Defined.

Lemma blank_record_is_indexed_witness :
  create_document_text Stub.float_repr (dict default_item) = ""
  /\ stub_add_quotation_item (dict default_item) (World Stub.healthy [])
     = (World (Stub.State None None (inr Stub.empty_reply)
                 [AddRequest [0%nat] [""] [dict default_item] ["None"]])
              [(INFO, "Added quotation item None to vector database")],
        inr tt).
Proof.
  destruct (blank_record_is_indexed Stub.float_repr nat Stub.state Stub.encode Stub.add
              (dict default_item)) as [Hdoc Hadd]; [vm_compute; reflexivity|].
  split; [exact Hdoc|].
  apply (Hadd (World Stub.healthy []) Stub.healthy _ 0%nat); vm_compute; reflexivity.
Defined.

Lemma none_id_shadows_quotationcode_witness :
  dict coded_item !! "quotationcode" = Some (VStr "Q1")
  /\ ids (item_request Stub.float_repr nat (dict coded_item) "Quotation Code: Q1" 18%nat)
     = ["None"]
  /\ ids (item_request Stub.float_repr nat (dict default_item) "" 0%nat) = ["None"].
Proof.
  destruct (none_id_shadows_quotationcode Stub.float_repr nat) as [Hid Hdict].
  split; [vm_compute; reflexivity|].
  split; apply Hid, Hdict; reflexivity.
Defined.

(** * Beyond the claims: the rest of the service, the facade and the row model *)

(** ** More about the document builder *)

(** Records for the examples of this part. *)
Definition acme_with_extras : record :=
  list_to_map [("id", VInt 9); ("customername", VStr "Acme"); ("customeremail", VNone);
               ("itembrand", VStr ""); ("itemsellingprice", VFloat 0%float);
               ("sellerphone", VStr "555-0100")].

Definition acme_only : record := list_to_map [("customername", VStr "Acme")].

Section Builder.

Variable float_repr : float -> string.

Lemma rendered_fields_ext (d1 d2 : record) (fields : list (string * string)) :
  (forall field, In field fields ->
     included d1 field.1 = included d2 field.1
     /\ (included d1 field.1 = true -> get d1 field.1 = get d2 field.1)) ->
  map (labelled float_repr d1) (List.filter (fun field => included d1 field.1) fields)
  = map (labelled float_repr d2) (List.filter (fun field => included d2 field.1) fields).
Proof.
  induction fields as [|field fields IH]; intros Hagree; [reflexivity|].
  rewrite !map_filter_cons, IH by (intros f Hf; apply Hagree; by right).
  destruct (Hagree field (or_introl eq_refl)) as [Hincl Hval].
  rewrite <- Hincl. destruct (included d1 field.1); [|reflexivity].
  unfold labelled. by rewrite Hval.
Qed.

(** The document is a function of the thirteen document fields that pass
    the truth test: two records that agree on which of these fields pass
    and on the values of those that pass have the same document; so
    writing any key outside the thirteen leaves the document unchanged. *)
Theorem document_depends_on_included_fields :
  (forall d1 d2 : record,
     (forall field, In field document_fields ->
        included d1 field.1 = included d2 field.1
        /\ (included d1 field.1 = true -> get d1 field.1 = get d2 field.1)) ->
     create_document_text float_repr d1 = create_document_text float_repr d2)
  /\ (forall (d : record) (key : string) (v : value),
        ~ In key (map fst document_fields) ->
        create_document_text float_repr (<[key := v]> d) = create_document_text float_repr d).
Proof.
  assert (Hgen : forall d1 d2 : record,
     (forall field, In field document_fields ->
        included d1 field.1 = included d2 field.1
        /\ (included d1 field.1 = true -> get d1 field.1 = get d2 field.1)) ->
     create_document_text float_repr d1 = create_document_text float_repr d2).
  { intros d1 d2 Hagree. rewrite !create_document_text_fields. f_equal.
    by apply rendered_fields_ext. }
  split; [exact Hgen|].
  intros d key v Hout. apply Hgen. intros field Hin.
  assert (Hne : key <> field.1).
  { intros ->. apply Hout. by apply in_map. }
  unfold included, get. rewrite lookup_insert_ne by exact Hne. by split.
Qed.

Lemma string_app_eq_nil (a b : string) : a +:+ b = "" -> a = "" /\ b = "".
Proof. destruct a; [by split | discriminate]. Qed.

Lemma concat_sep_eq_nil (sep x : string) (l : list string) :
  String.concat sep (x :: l) = "" -> x = "".
Proof.
  destruct l as [|y l]; simpl; [done|].
  intros Heq. by apply string_app_eq_nil in Heq as [-> _].
Qed.

Lemma filter_nil_forallb {A : Type} (p : A -> bool) (l : list A) :
  List.filter p l = [] -> forallb (fun x => negb (p x)) l = true.
Proof.
  induction l as [|x l IH]; [reflexivity|].
  simpl. destruct (p x); [discriminate|]. exact IH.
Qed.

(** The document is empty exactly when none of the thirteen fields
    passes the truth test. *)
Theorem document_empty_iff (d : record) :
  create_document_text float_repr d = ""
  <-> forallb (fun field => negb (included d field.1)) document_fields = true.
Proof.
  rewrite create_document_text_fields. split.
  - intros Hempty. apply filter_nil_forallb.
    destruct (List.filter _ document_fields) as [|field rest]; [reflexivity|].
    simpl map in Hempty. apply concat_sep_eq_nil in Hempty.
    unfold labelled in Hempty.
    apply string_app_eq_nil in Hempty as [_ Hempty]. discriminate.
  - intros Hnone. rewrite filter_none; [reflexivity|].
    rewrite forallb_forall in Hnone. intros field Hin.
    specialize (Hnone field Hin). by destruct (included d field.1).
Qed.

Lemma concat_sep_elem (sep x : string) (l : list string) :
  In x l -> exists pre post, String.concat sep l = pre +:+ x +:+ post.
Proof.
  induction l as [|y l IH]; [intros []|].
  intros [->|Hin].
  - exists "". destruct l as [|z l].
    + exists "". simpl. by rewrite string_app_nil_r.
    + by exists (sep +:+ String.concat sep (z :: l)).
  - destruct (IH Hin) as (pre & post & Heq).
    destruct l as [|z l]; [destruct Hin|].
    exists (y +:+ sep +:+ pre), post.
    change (String.concat sep (y :: z :: l)) with (y +:+ sep +:+ String.concat sep (z :: l)).
    rewrite Heq. by rewrite !string_app_assoc.
Qed.

(** Every document field that passes the truth test is in the document
    in its labelled form. *)
Theorem included_field_is_rendered (d : record) (field : string * string) :
  In field document_fields ->
  included d field.1 = true ->
  exists pre post,
    create_document_text float_repr d = pre +:+ labelled float_repr d field +:+ post.
Proof.
  intros Hin Hincl. rewrite create_document_text_fields.
  apply concat_sep_elem, in_map, filter_In. by split.
Qed.

End Builder.

Lemma document_depends_on_included_fields_witness :
  create_document_text Stub.float_repr acme_with_extras
  = create_document_text Stub.float_repr acme_only
  /\ create_document_text Stub.float_repr (<["sellerphone" := VStr "555-0100"]> acme_only)
     = create_document_text Stub.float_repr acme_only.
Proof.
  destruct (document_depends_on_included_fields Stub.float_repr) as [Hgen Hkey].
  split.
  - apply Hgen. intros field Hin. simpl in Hin.
    repeat (destruct Hin as [<-|Hin];
            [split; [vm_compute; reflexivity
                    | intros Hincl;
                      first [vm_compute; reflexivity | vm_compute in Hincl; discriminate]]|]).
    destruct Hin.
  - apply Hkey. simpl. intros Hin.
    repeat (destruct Hin as [Hin|Hin]; [discriminate|]). destruct Hin.
Defined.

Lemma included_field_is_rendered_witness :
  exists pre post,
    create_document_text Stub.float_repr acme_record
    = pre +:+ labelled Stub.float_repr acme_record ("itemname", "Item") +:+ post.
Proof.
  apply (included_field_is_rendered Stub.float_repr acme_record ("itemname", "Item")).
  - simpl. do 6 right. by left.
  - vm_compute. reflexivity.
Defined.

Lemma document_empty_iff_witness :
  create_document_text Stub.float_repr (dict default_item) = ""
  /\ create_document_text Stub.float_repr acme_only <> "".
Proof.
  split.
  - apply (document_empty_iff Stub.float_repr (dict default_item)). vm_compute. reflexivity.
  - intros Hempty.
    apply (document_empty_iff Stub.float_repr acme_only) in Hempty.
    vm_compute in Hempty. discriminate.
Defined.

(** ** The rest of the gateway and the HTTP facade *)

(** What an endpoint raises: [HTTPException(status_code, detail)]. *)
Record http_exception : Type := HTTPException { status_code : Z; detail : string }.

(** [a or b]. *)
Definition py_or (a b : value) : value := if truthy a then a else b.

(** A stub that also records deletions and answers [count] with a canned
    reply; the other calls go to [Stub]. *)
Module Mock.

Record state : Type := State {
  base : Stub.state;
  delete_failure : option exception;
  deleted : list (list string);
  count_reply : exception + Z
}.

Definition lift {A : Type} (f : Stub.state -> Stub.state * A) (s : state) : state * A :=
  let '(b, r) := f (base s) in
  (State b (delete_failure s) (deleted s) (count_reply s), r).

Definition encode (text : string) : state -> state * (exception + nat) :=
  lift (Stub.encode text).

Definition add (req : add_request nat) : state -> state * (exception + unit) :=
  lift (Stub.add req).

Definition query (query_embeddings : list nat) (n_results : Z)
  : state -> state * (exception + chroma_result) :=
  lift (Stub.query query_embeddings n_results).

Definition delete (ids : list string) (s : state) : state * (exception + unit) :=
  match delete_failure s with
  | Some e => (s, inl e)
  | None => (State (base s) (delete_failure s) (deleted s ++ [ids]) (count_reply s), inr tt)
  end.

Definition count (s : state) : state * (exception + Z) := (s, count_reply s).

Definition over (b : Stub.state) : state := State b None [] (inr 0).

End Mock.

Definition index_down : exception := Exception "ConnectionError" "index unreachable".

Section Gateway.

Variable float_repr : float -> string.
Variable embedding : Type.
Variable backend : Type.
Variable model_encode : string -> backend -> backend * (exception + embedding).
Variable collection_add : add_request embedding -> backend -> backend * (exception + unit).
Variable collection_query : list embedding -> Z -> backend -> backend * (exception + chroma_result).

(** [collection.delete(ids=...)] and [collection.count()]. *)
Variable collection_delete : list string -> backend -> backend * (exception + unit).
Variable collection_count : backend -> backend * (exception + Z).

Notation "'let*' x ':=' m 'in' k" := (bind backend m (fun x => k))
  (at level 10, x name, m at level 100, k at level 200).

Definition delete_by_id (item_id : value) : M backend unit :=
  try_except backend
    (let* _ := call backend (collection_delete [str float_repr item_id]) in
     logger backend INFO
       ("Deleted quotation item " +:+ str float_repr item_id +:+ " from vector database"))
    (fun e =>
       let* _ := logger backend ERROR ("Error deleting quotation item: " +:+ exn_str e) in
       raise backend e).

Definition get_collection_count : M backend Z := call backend collection_count.

(** *** Endpoints of [main.py] *)

(** [try: body except Exception as e: logger.error(msg e); raise
    HTTPException(status_code=500, detail=str(e))]. *)
Definition except_500 {A : Type} (body : M backend A) (msg : exception -> string)
  : world backend -> world backend * (http_exception + A) :=
  fun w =>
    match body w with
    | (w', inr a) => (w', inr a)
    | (w', inl e) =>
        (World (backend_of w') (log_of w' ++ [(ERROR, msg e)]),
         inl (HTTPException 500 (exn_str e)))
    end.

(** [POST /quotations/add]. *)
Definition add_quotation (item : QuotationItemCreate)
  : world backend -> world backend * (http_exception + record) :=
  except_500
    (let item_dict := dict item in
     let* _ := add_quotation_item float_repr embedding backend model_encode collection_add
                 item_dict in
     ret backend
       (list_to_map
          [("status", VStr "success");
           ("message", VStr "Quotation item added successfully");
           ("item_id", py_or (get item_dict "id") (get item_dict "quotationcode"))]))
    (fun e => "Error adding quotation: " +:+ exn_str e).

(** [POST /quotations/bulk-add]. *)
Definition bulk_add_quotations (items : list QuotationItemCreate)
  : world backend -> world backend * (http_exception + record) :=
  except_500
    (let items_list := map dict items in
     let* _ := bulk_add_quotation_items float_repr embedding backend model_encode
                 collection_add items_list in
     ret backend
       (list_to_map
          [("status", VStr "success");
           ("message", VStr ("Added " +:+ str_int (Z.of_nat (List.length items_list))
                             +:+ " quotation items successfully"));
           ("count", VInt (Z.of_nat (List.length items_list)))]))
    (fun e => "Error in bulk add: " +:+ exn_str e).

(** [GET /query-simple]. *)
Definition query_simple (question : string) (n_results : Z)
  : world backend -> world backend * (http_exception + record) :=
  except_500
    (let* answer := generate_answer float_repr embedding backend model_encode
                      collection_query question n_results in
     ret backend (list_to_map [("question", VStr question); ("answer", VStr answer)]))
    (fun e => "Error in simple query: " +:+ exn_str e).

(** [DELETE /quotations/{item_id}]; the path parameter is a string. *)
Definition delete_quotation (item_id : string)
  : world backend -> world backend * (http_exception + record) :=
  except_500
    (let* _ := delete_by_id (VStr item_id) in
     ret backend
       (list_to_map
          [("status", VStr "success");
           ("message", VStr ("Deleted quotation item " +:+ item_id))]))
    (fun e => "Error deleting: " +:+ exn_str e).

(** [GET /stats]. *)
Definition get_stats : world backend -> world backend * (http_exception + record) :=
  except_500
    (let* count := get_collection_count in
     ret backend
       (list_to_map
          [("status", VStr "success");
           ("total_items", VInt count);
           ("model", VStr "all-MiniLM-L6-v2");
           ("vector_db", VStr "ChromaDB")]))
    (fun e => "Error getting stats: " +:+ exn_str e).

(** *** Identifiers *)

(** The single and the bulk path name a record alike whenever it has the
    key [id] or the key [quotationcode]; with neither key the single path
    uses the fixed identifier ["unknown"], which no bulk fallback equals. *)
Theorem single_and_batch_identifiers (item : record) (n : nat) :
  (is_Some (item !! "id") \/ is_Some (item !! "quotationcode") ->
   batch_item_id float_repr item n = item_id float_repr item)
  /\ (item !! "id" = None -> item !! "quotationcode" = None ->
      item_id float_repr item = "unknown"
      /\ batch_item_id float_repr item n <> item_id float_repr item).
Proof.
  unfold batch_item_id, item_id, get_or. split.
  - intros Hkey.
    destruct (item !! "id") as [v|]; [reflexivity|].
    destruct (item !! "quotationcode") as [c|]; [reflexivity|].
    destruct Hkey as [[x Hx]|[x Hx]]; discriminate.
  - intros -> ->. split; [reflexivity|]. simpl.
    cbv beta iota delta [String.append]. discriminate.
Qed.

(** *** The bulk loop *)

Lemma bulk_collect_shape (quotation_items : list record) :
  forall (acc : add_request embedding) (w w' : world backend) (req : add_request embedding),
    bulk_collect float_repr embedding backend model_encode quotation_items acc w = (w', inr req) ->
    metadatas req = metadatas acc ++ quotation_items
    /\ documents req = documents acc ++ map (create_document_text float_repr) quotation_items
    /\ List.length (embeddings req)
       = (List.length (embeddings acc) + List.length quotation_items)%nat.
Proof.
  induction quotation_items as [|item rest IH]; intros acc w w' req Hrun.
  - inversion Hrun. rewrite !app_nil_r. simpl. by rewrite Nat.add_0_r.
  - simpl in Hrun. unfold bind, call in Hrun.
    destruct (model_encode _ _) as [b [e|emb]]; [discriminate|].
    apply IH in Hrun as (Hm & Hd & He). simpl in Hm, Hd, He.
    rewrite Hm, Hd, He, <- !app_assoc, length_app. simpl. repeat split. lia.
Qed.

Lemma bulk_collect_log (quotation_items : list record) :
  forall (acc : add_request embedding) (w : world backend),
    log_of (bulk_collect float_repr embedding backend model_encode quotation_items acc w).1
    = log_of w.
Proof.
  induction quotation_items as [|item rest IH]; intros acc w; [reflexivity|].
  simpl. unfold bind, call.
  destruct (model_encode _ _) as [b [e|emb]]; [reflexivity|].
  by rewrite IH.
Qed.

Lemma bulk_collect_app (l1 l2 : list record) :
  forall (acc : add_request embedding) (w : world backend),
    bulk_collect float_repr embedding backend model_encode (l1 ++ l2) acc w
    = match bulk_collect float_repr embedding backend model_encode l1 acc w with
      | (w1, inr acc1) => bulk_collect float_repr embedding backend model_encode l2 acc1 w1
      | (w1, inl e) => (w1, inl e)
      end.
Proof.
  induction l1 as [|item l1 IH]; intros acc w; [reflexivity|].
  simpl. unfold bind, call.
  destruct (model_encode _ _) as [b [e|emb]]; [reflexivity|].
  apply IH.
Qed.

(** The request a completed bulk loop hands to the index has four lists
    of the length of the batch: the metadatas are the records, the
    documents their built texts, in batch order. *)
Theorem bulk_request_is_parallel (quotation_items : list record) (w w' : world backend)
  (req : add_request embedding) :
  bulk_collect float_repr embedding backend model_encode quotation_items
    (AddRequest [] [] [] []) w = (w', inr req) ->
  metadatas req = quotation_items
  /\ documents req = map (create_document_text float_repr) quotation_items
  /\ List.length (embeddings req) = List.length quotation_items
  /\ List.length (ids req) = List.length quotation_items.
Proof.
  intros Hrun.
  pose proof (bulk_collect_shape _ _ _ _ _ Hrun) as (Hm & Hd & He).
  apply bulk_collect_ids in Hrun. simpl in *.
  repeat split; try assumption. by rewrite Hrun, length_imap.
Qed.

(** When the model fails on one record of a batch, after embedding the
    records before it, [bulk_add_quotation_items] raises that exception,
    writes no log record and never reaches the index: nothing of the
    batch is added. *)
Theorem bulk_add_stops_at_failed_embedding (pre rest : list record) (item : record)
  (w w1 : world backend) (acc : add_request embedding) (b : backend) (e : exception) :
  bulk_collect float_repr embedding backend model_encode pre (AddRequest [] [] [] []) w
    = (w1, inr acc) ->
  model_encode (create_document_text float_repr item) (backend_of w1) = (b, inl e) ->
  bulk_add_quotation_items float_repr embedding backend model_encode collection_add
    (pre ++ item :: rest) w
  = (World b (log_of w), inl e).
Proof.
  intros Hpre Hfail. unfold bulk_add_quotation_items, bind.
  rewrite bulk_collect_app, Hpre. simpl. unfold bind, call. rewrite Hfail.
  pose proof (bulk_collect_log pre (AddRequest [] [] [] []) w) as Hlog.
  rewrite Hpre in Hlog. simpl in Hlog. by rewrite Hlog.
Qed.

(** *** Deletion *)

(** [delete_by_id] given the [id] of a record addresses the identifier
    under which [add_quotation_item] indexed that record; it returns
    normally and logs the deletion when the index accepts, and logs an
    error and re-raises the same exception when the index fails. *)
Theorem delete_by_id_addresses_added_record (d : record) (v : value) (doc : string)
  (emb : embedding) (w : world backend) :
  d !! "id" = Some v ->
  match collection_delete (ids (item_request float_repr embedding d doc emb)) (backend_of w) with
  | (b, inr _) =>
      delete_by_id v w
      = (World b (log_of w ++ [(INFO, "Deleted quotation item " +:+ item_id float_repr d
                                      +:+ " from vector database")]), inr tt)
  | (b, inl e) =>
      delete_by_id v w
      = (World b (log_of w ++ [(ERROR, "Error deleting quotation item: " +:+ exn_str e)]),
         inl e)
  end.
Proof.
  intros Hid. simpl. unfold item_id, get_or. rewrite Hid. simpl.
  unfold delete_by_id, try_except, bind, call, logger, raise.
  destruct (collection_delete _ _) as [b [e|[]]]; reflexivity.
Qed.

(** *** Retrieval and the answer *)

(** A failed retrieval is never answered with the fixed sentence: when
    the model or the index raises [e] during [generate_answer], one ERROR
    record is logged and the caller gets [e]. *)
Theorem generate_answer_propagates_failure (question : string) (n_results : Z)
  (w : world backend) (e : exception) :
  (exists b, model_encode question (backend_of w) = (b, inl e))
  \/ (exists b emb b',
        model_encode question (backend_of w) = (b, inr emb)
        /\ collection_query [emb] n_results b = (b', inl e)) ->
  exists w',
    generate_answer float_repr embedding backend model_encode collection_query
      question n_results w = (w', inl e)
    /\ log_of w' = log_of w ++ [(ERROR, "Error querying vector database: " +:+ exn_str e)].
Proof.
  intros Hfail. unfold generate_answer, bind. rewrite query_run. simpl.
  destruct Hfail as [(b & ->)|(b & emb & b' & -> & ->)]; eauto.
Qed.

Lemma zip3_length {A B C : Type} (a : list A) :
  forall (b : list B) (c : list C),
    List.length (zip3 a b c)
    = Nat.min (List.length a) (Nat.min (List.length b) (List.length c)).
Proof.
  induction a as [|x a IH]; intros b c; [reflexivity|].
  destruct b as [|y b]; [reflexivity|].
  destruct c as [|z c]; [simpl; lia|].
  simpl. by rewrite IH.
Qed.

(** With at least one document the answer is the header followed by the
    entries of the zipped rows, and there are as many rows as the
    shortest of the three result lists has elements: results beyond the
    shortest list are left out, and with no metadatas or no distances the
    answer is the bare header. *)
Theorem answer_lists_shortest_prefix (question : string) (n_results : Z)
  (w w' : world backend) (r : query_result) :
  query embedding backend model_encode collection_query question n_results w = (w', inr r) ->
  q_documents r <> [] ->
  generate_answer float_repr embedding backend model_encode collection_query
    question n_results w
  = (w', inr (answer_header
              +:+ String.concat ""
                    (imap (fun i row => entry float_repr (Z.of_nat i + 1) row)
                          (zip3 (q_documents r) (q_metadatas r) (q_distances r)))))
  /\ List.length (zip3 (q_documents r) (q_metadatas r) (q_distances r))
     = Nat.min (List.length (q_documents r))
               (Nat.min (List.length (q_metadatas r)) (List.length (q_distances r))).
Proof.
  intros Hq Hne. split; [|apply zip3_length].
  rewrite (generate_answer_run _ _ _ _ _ _ _ _ _ _ Hq), (query_count _ _ _ _ _ _ _ _ _ Hq).
  destruct (q_documents r) as [|doc docs] eqn:Hdocs; [congruence|].
  replace (Z.of_nat (List.length (doc :: docs)) =? 0) with false
    by (symmetry; apply Z.eqb_neq; simpl List.length; lia).
  rewrite answer_loop_entries.
  change (String.concat "" [answer_header]) with answer_header.
  do 4 f_equal. apply imap_ext. intros i x _. f_equal. lia.
Qed.

Lemma zip3_metadatas {A A' C C' : Type} (metas : list record) :
  forall (a : list A) (a' : list A') (c : list C) (c' : list C'),
    List.length a = List.length a' ->
    List.length c = List.length c' ->
    map (fun row => row.1.2) (zip3 a metas c) = map (fun row => row.1.2) (zip3 a' metas c').
Proof.
  induction metas as [|m metas IH]; intros a a' c c' Ha Hc.
  - destruct a, a'; reflexivity.
  - destruct a as [|x a], a' as [|x' a']; try discriminate; [reflexivity|].
    destruct c as [|z c], c' as [|z' c']; try discriminate; [reflexivity|].
    simpl. f_equal. apply IH; [by injection Ha | by injection Hc].
Qed.

Lemma answer_loop_metadatas (rows1 rows2 : list (string * record * float)) :
  map (fun row => row.1.2) rows1 = map (fun row => row.1.2) rows2 ->
  forall (idx : Z) (parts : list string),
    answer_loop float_repr rows1 idx parts = answer_loop float_repr rows2 idx parts.
Proof.
  revert rows2. induction rows1 as [|[[doc1 m1] x1] rows1 IH];
    intros [|[[doc2 m2] x2] rows2] Heq idx parts; try discriminate; [reflexivity|].
  simpl in Heq. injection Heq as Hm Hrest. subst.
  simpl. by apply IH.
Qed.

(** The answer is a function of the metadatas and of the numbers of
    documents and distances: two retrievals with the same metadatas, as
    many documents and as many distances are answered alike, whatever the
    document texts and distance values are. *)
Theorem answer_depends_on_metadatas_only (question1 question2 : string) (n1 n2 : Z)
  (w1 w1' w2 w2' : world backend) (r1 r2 : query_result) :
  query embedding backend model_encode collection_query question1 n1 w1 = (w1', inr r1) ->
  query embedding backend model_encode collection_query question2 n2 w2 = (w2', inr r2) ->
  q_metadatas r1 = q_metadatas r2 ->
  List.length (q_documents r1) = List.length (q_documents r2) ->
  List.length (q_distances r1) = List.length (q_distances r2) ->
  (generate_answer float_repr embedding backend model_encode collection_query
     question1 n1 w1).2
  = (generate_answer float_repr embedding backend model_encode collection_query
       question2 n2 w2).2.
Proof.
  intros Hq1 Hq2 Hmetas Hdocs Hdists.
  rewrite (generate_answer_run _ _ _ _ _ _ _ _ _ _ Hq1),
          (generate_answer_run _ _ _ _ _ _ _ _ _ _ Hq2).
  rewrite (query_count _ _ _ _ _ _ _ _ _ Hq1), (query_count _ _ _ _ _ _ _ _ _ Hq2).
  rewrite Hdocs, Hmetas. simpl. do 2 f_equal.
  destruct (_ =? 0); [reflexivity|]. f_equal.
  apply answer_loop_metadatas. by apply zip3_metadatas.
Qed.

(** *** The facade *)

Lemma dict_lookup_id (item : QuotationItemCreate) :
  dict item !! "id" = Some (of_int (id item)).
Proof. unfold dict. by rewrite list_to_map_cons, lookup_insert_eq. Qed.

Lemma dict_lookup_quotationcode (item : QuotationItemCreate) :
  dict item !! "quotationcode" = Some (of_str (quotationcode item)).
Proof.
  unfold dict. rewrite !list_to_map_cons.
  rewrite !lookup_insert_ne by done. by rewrite lookup_insert_eq.
Qed.

(** A successful [POST /quotations/add] reports [id or quotationcode]
    as [item_id], while the record is indexed under [str(id)]: for a
    request without [id] (or with [id = 0]) and with a quotation code the
    response names the code, the index holds ["None"] (or ["0"]). *)
Theorem add_quotation_reports_id_or_code (item : QuotationItemCreate)
  (w w' : world backend) (resp : record) :
  add_quotation item w = (w', inr resp) ->
  resp !! "item_id" = Some (py_or (of_int (id item)) (of_str (quotationcode item)))
  /\ forall (doc : string) (emb : embedding),
       ids (item_request float_repr embedding (dict item) doc emb)
       = [str float_repr (of_int (id item))].
Proof.
  intros Hrun. split.
  - unfold add_quotation, except_500, bind, ret in Hrun.
    destruct (add_quotation_item _ _ _ _ _ _ _) as [w1 [e|[]]]; [discriminate|].
    injection Hrun as _ <-.
    rewrite !lookup_insert_ne by done.
    rewrite lookup_insert_eq. unfold get.
    by rewrite dict_lookup_id, dict_lookup_quotationcode.
  - intros doc emb. simpl. unfold item_id, get_or. by rewrite dict_lookup_id.
Qed.

(** When the model fails while [POST /quotations/add] is served, the
    endpoint raises [HTTPException] with status 500 and the text of the
    exception as detail, the index is not called, and the failure is
    logged twice, by the service and by the endpoint. *)
Theorem add_quotation_embedding_failure (item : QuotationItemCreate) (w : world backend)
  (b : backend) (e : exception) :
  model_encode (create_document_text float_repr (dict item)) (backend_of w) = (b, inl e) ->
  add_quotation item w
  = (World b (log_of w ++ [(ERROR, "Error adding quotation item: " +:+ exn_str e);
                           (ERROR, "Error adding quotation: " +:+ exn_str e)]),
     inl (HTTPException 500 (exn_str e))).
Proof.
  intros Hfail.
  assert (Hadd : add_quotation_item float_repr embedding backend model_encode collection_add
                   (dict item) w
                 = (World b (log_of w ++ [(ERROR, "Error adding quotation item: " +:+ exn_str e)]),
                    inl e)).
  { rewrite add_quotation_item_run. cbv zeta. by rewrite Hfail. }
  unfold add_quotation, except_500, bind. cbv zeta. rewrite Hadd.
  cbv beta iota. cbn [backend_of log_of]. by rewrite <- app_assoc.
Qed.

Lemma batch_item_id_dict (item : QuotationItemCreate) (n : nat) :
  batch_item_id float_repr (dict item) n = str float_repr (of_int (id item)).
Proof. unfold batch_item_id, get_or. by rewrite dict_lookup_id. Qed.

(** Through [POST /quotations/bulk-add] the positional fallback is out
    of reach: every record of the batch has the key [id], so the
    identifiers are [str(id)] record by record, and every request
    without [id] is sent as ["None"]. *)
Theorem bulk_add_quotations_identifiers (items : list QuotationItemCreate)
  (w w' : world backend) (req : add_request embedding) :
  bulk_collect float_repr embedding backend model_encode (map dict items)
    (AddRequest [] [] [] []) w = (w', inr req) ->
  ids req = map (fun item => str float_repr (of_int (id item))) items.
Proof.
  intros Hrun. apply bulk_collect_ids in Hrun. simpl in Hrun. rewrite Hrun.
  apply list_eq. intros i.
  rewrite list_lookup_imap, !list_lookup_fmap.
  destruct (items !! i) as [item|]; [|reflexivity].
  simpl. by rewrite batch_item_id_dict.
Qed.

(** [GET /query-simple] on an index that answers with no documents (the
    key is [None], an empty list, or a list whose first element is empty)
    is a success: the response carries the question and the fixed
    sentence, and nothing is logged. *)
Theorem query_simple_no_results (question : string) (n_results : Z) (w : world backend)
  (b b' : backend) (emb : embedding) (results : chroma_result) :
  model_encode question (backend_of w) = (b, inr emb) ->
  collection_query [emb] n_results b = (b', inr results) ->
  (res_documents results = None \/ res_documents results = Some []
   \/ exists rest, res_documents results = Some ([] :: rest)) ->
  query_simple question n_results w
  = (World b' (log_of w),
     inr (list_to_map [("question", VStr question);
                       ("answer", VStr "I couldn't find any relevant information for your question.")])).
Proof.
  intros Hencode Hquery Hnone.
  assert (Hq : query embedding backend model_encode collection_query question n_results w
               = (World b' (log_of w),
                  inr {| q_question := question; q_documents := [];
                         q_metadatas := first_or_empty (res_metadatas results);
                         q_distances := first_or_empty (res_distances results);
                         q_count := 0 |})).
  { rewrite query_run. simpl. rewrite Hencode, Hquery.
    by destruct Hnone as [->|[->|[rest ->]]]. }
  unfold query_simple, except_500, bind, ret.
  by rewrite (generate_answer_run _ _ _ _ _ _ _ _ _ _ Hq).
Qed.

End Gateway.

Arguments delete_by_id float_repr {backend} _ _ _.
Arguments add_quotation float_repr {embedding backend} _ _ _ _.
Arguments bulk_add_quotations float_repr {embedding backend} _ _ _ _.
Arguments query_simple float_repr {embedding backend} _ _ _ _ _.
Arguments delete_quotation float_repr {backend} _ _ _.
Arguments get_stats {backend} _ _.
Arguments get_collection_count {backend} _ _.

(** ** Instances of this part on the stubs *)

(** A model that rejects the empty document. *)
Definition picky_encode (text : string) (s : Stub.state) : Stub.state * (exception + nat) :=
  if String.eqb text "" then (s, inl model_down) else Stub.encode text s.

(** An index reply with three documents, two metadatas and three distances. *)
Definition ragged : Stub.state :=
  Stub.State None None
    (inr (ChromaResult (Some [["Item: Bearing"; "Item: Seal"; "Quotation Code: Q3"]])
                       (Some [[bearing; seal]])
                       (Some [[0.125%float; 0.25%float; 0.5%float]])))
    [].

(** The metadatas of [ranked_rows] under other documents and distances. *)
Definition retitled_rows : list (string * record * float) :=
  [("first", bearing, 1%float); ("second", seal, 2%float); ("third", gasket, 3%float)].

Lemma single_and_batch_identifiers_witness :
  batch_item_id Stub.float_repr (list_to_map [("quotationcode", VStr "Q1")]) 3
  = item_id Stub.float_repr (list_to_map [("quotationcode", VStr "Q1")])
  /\ item_id Stub.float_repr seal = "unknown"
  /\ batch_item_id Stub.float_repr seal 3 <> item_id Stub.float_repr seal.
Proof.
  split.
  - apply (single_and_batch_identifiers Stub.float_repr). right. by eexists.
  - apply (single_and_batch_identifiers Stub.float_repr seal 3); reflexivity.
Defined.

Lemma bulk_request_is_parallel_witness :
  match (stub_bulk_collect anonymous_batch (AddRequest [] [] [] []) (World Stub.healthy [])).2 with
  | inr req =>
      metadatas req = anonymous_batch
      /\ documents req = map (create_document_text Stub.float_repr) anonymous_batch
      /\ List.length (embeddings req) = 3%nat
      /\ List.length (ids req) = 3%nat
  | inl _ => False
  end.
Proof.
  destruct (stub_bulk_collect anonymous_batch (AddRequest [] [] [] []) (World Stub.healthy []))
    as [w' [e|req]] eqn:Hrun.
  - vm_compute in Hrun. discriminate.
  - exact (bulk_request_is_parallel Stub.float_repr nat Stub.state Stub.encode
             anonymous_batch (World Stub.healthy []) w' req Hrun).
Defined.

Lemma bulk_add_stops_at_failed_embedding_witness :
  bulk_add_quotation_items Stub.float_repr nat Stub.state picky_encode Stub.add
    ([acme_only] ++ dict default_item :: [seal]) (World Stub.healthy [])
  = (World Stub.healthy [], inl model_down).
Proof.
  apply (bulk_add_stops_at_failed_embedding Stub.float_repr nat Stub.state picky_encode Stub.add
           [acme_only] [seal] (dict default_item) (World Stub.healthy []) (World Stub.healthy [])
           (AddRequest [14%nat] ["Customer: Acme"] [acme_only] ["item_0"]));
    vm_compute; reflexivity.
Defined.

Lemma delete_by_id_addresses_added_record_witness :
  delete_by_id Stub.float_repr Mock.delete (VInt 7) (World (Mock.over Stub.healthy) [])
  = (World (Mock.State Stub.healthy None [["7"]] (inr 0))
           [(INFO, "Deleted quotation item 7 from vector database")], inr tt).
Proof.
  exact (delete_by_id_addresses_added_record Stub.float_repr nat Mock.state Mock.delete
           (list_to_map [("id", VInt 7); ("quotationcode", VStr "Q1")]) (VInt 7)
           "Quotation Code: Q1" 18%nat (World (Mock.over Stub.healthy) []) eq_refl).
Defined.

Lemma generate_answer_propagates_failure_witness :
  exists w',
    stub_generate_answer "bearings" 5 (World broken_model []) = (w', inl model_down)
    /\ log_of w' = [(ERROR, "Error querying vector database: model unavailable")].
Proof.
  apply (generate_answer_propagates_failure Stub.float_repr nat Stub.state Stub.encode Stub.query
           "bearings" 5 (World broken_model []) model_down).
  left. by exists broken_model.
Defined.

Lemma answer_lists_shortest_prefix_witness :
  stub_generate_answer "bearings" 5 (World ragged [])
  = (World ragged [],
     inr (answer_header
          +:+ String.concat ""
                (imap (fun i row => entry Stub.float_repr (Z.of_nat i + 1) row)
                      (zip3 ["Item: Bearing"; "Item: Seal"; "Quotation Code: Q3"]
                            [bearing; seal] [0.125%float; 0.25%float; 0.5%float]))))
  /\ List.length (zip3 ["Item: Bearing"; "Item: Seal"; "Quotation Code: Q3"]
                       [bearing; seal] [0.125%float; 0.25%float; 0.5%float]) = 2%nat.
Proof.
  apply (answer_lists_shortest_prefix Stub.float_repr nat Stub.state Stub.encode Stub.query
           "bearings" 5 (World ragged []) (World ragged [])
           (QueryResultDict "bearings" ["Item: Bearing"; "Item: Seal"; "Quotation Code: Q3"]
              [bearing; seal] [0.125%float; 0.25%float; 0.5%float] 3));
    [reflexivity | discriminate].
Defined.

(** Three documents came back and two are listed. *)
Example ragged_answer_text :
  (stub_generate_answer "bearings" 5 (World ragged [])).2
  = inr ("Based on the quotation data, here's what I found:" +:+ nl
         +:+ nl +:+ "1. Quotation Q1: Bearing for Acme at ₹500 (Status: open)"
         +:+ nl +:+ "2. Seal ").
Proof. vm_compute. reflexivity. Qed.

Lemma answer_depends_on_metadatas_only_witness :
  (stub_generate_answer "bearings" 5 (World (serving ranked_rows) [])).2
  = (stub_generate_answer "gaskets" 3 (World (serving retitled_rows) [])).2.
Proof.
  apply (answer_depends_on_metadatas_only Stub.float_repr nat Stub.state Stub.encode Stub.query
           "bearings" "gaskets" 5 3
           (World (serving ranked_rows) []) (World (serving ranked_rows) [])
           (World (serving retitled_rows) []) (World (serving retitled_rows) [])
           (QueryResultDict "bearings" (map (fun row => row.1.1) ranked_rows)
              (map (fun row => row.1.2) ranked_rows) (map snd ranked_rows) 3)
           (QueryResultDict "gaskets" (map (fun row => row.1.1) retitled_rows)
              (map (fun row => row.1.2) retitled_rows) (map snd retitled_rows) 3));
    reflexivity.
Defined.

Lemma add_quotation_reports_id_or_code_witness :
  match (add_quotation Stub.float_repr Stub.encode Stub.add coded_item
           (World Stub.healthy [])).2 with
  | inr resp =>
      resp !! "item_id" = Some (VStr "Q1")
      /\ ids (item_request Stub.float_repr nat (dict coded_item) "Quotation Code: Q1" 18%nat)
         = ["None"]
  | inl _ => False
  end.
Proof.
  destruct (add_quotation Stub.float_repr Stub.encode Stub.add coded_item
              (World Stub.healthy [])) as [w' [h|resp]] eqn:Hrun.
  - vm_compute in Hrun. discriminate.
  - destruct (add_quotation_reports_id_or_code Stub.float_repr nat Stub.state Stub.encode
                Stub.add coded_item (World Stub.healthy []) w' resp Hrun) as [Hresp Hids].
    split; [exact Hresp | exact (Hids "Quotation Code: Q1" 18%nat)].
Defined.

Lemma add_quotation_embedding_failure_witness :
  add_quotation Stub.float_repr Stub.encode Stub.add coded_item (World broken_model [])
  = (World broken_model
       [(ERROR, "Error adding quotation item: model unavailable");
        (ERROR, "Error adding quotation: model unavailable")],
     inl (HTTPException 500 "model unavailable")).
Proof.
  apply (add_quotation_embedding_failure Stub.float_repr nat Stub.state Stub.encode Stub.add
           coded_item (World broken_model []) broken_model model_down).
  reflexivity.
Defined.

Lemma bulk_add_quotations_identifiers_witness :
  match (stub_bulk_collect (map dict [coded_item; default_item]) (AddRequest [] [] [] [])
           (World Stub.healthy [])).2 with
  | inr req => ids req = ["None"; "None"]
  | inl _ => False
  end.
Proof.
  destruct (stub_bulk_collect (map dict [coded_item; default_item]) (AddRequest [] [] [] [])
              (World Stub.healthy [])) as [w' [e|req]] eqn:Hrun.
  - vm_compute in Hrun. discriminate.
  - exact (bulk_add_quotations_identifiers Stub.float_repr nat Stub.state Stub.encode
             [coded_item; default_item] (World Stub.healthy []) w' req Hrun).
Defined.

Lemma query_simple_no_results_witness :
  query_simple Stub.float_repr Stub.encode Stub.query "any bearings?" 5 (World Stub.healthy [])
  = (World Stub.healthy [],
     inr (list_to_map
            [("question", VStr "any bearings?");
             ("answer", VStr "I couldn't find any relevant information for your question.")])).
Proof.
  apply (query_simple_no_results Stub.float_repr nat Stub.state Stub.encode Stub.query
           "any bearings?" 5 (World Stub.healthy []) Stub.healthy Stub.healthy 13%nat
           Stub.empty_reply); [reflexivity | reflexivity |].
  right. right. by exists [].
Defined.

(** ** The row model ([app/models.py]) *)

(** A finite [decimal.Decimal]: [digits * 10 ^ exponent]. *)
Record decimal : Type := Decimal { digits : Z; exponent : Z }.

(** [bool(d)]. *)
Definition decimal_truthy (d : decimal) : bool := negb (digits d =? 0).

Module models.

Section Row.

(** [float(d)], the [datetime] and [date] types and their [isoformat()],
    all provided by the interpreter. *)
Variable float_of_decimal : decimal -> float.
Variable datetime : Type.
Variable date : Type.
Variable datetime_isoformat : datetime -> string.
Variable date_isoformat : date -> string.

(** A [QuotationItem] object: every column is nullable. *)
Record QuotationItem : Type := {
  id : option Z;
  customername : option string;
  customerphone : option string;
  customeremail : option string;
  customerid : option Z;
  customercode : option string;
  quotationid : option Z;
  quotationcode : option string;
  quptationstatus : option string;
  quotationtotalamount : option decimal;
  quotationtermsconditions : option string;
  quotationsellerremarks : option string;
  quotationissuedby : option string;
  quotationcreatedat : option datetime;
  itemname : option string;
  itemspecifications : option string;
  itembrand : option string;
  itemquantity : option decimal;
  itemdeliverydate : option date;
  itempricedemanded : option string;
  itempricevalidtill : option date;
  itemlistingprice : option decimal;
  itemsellerdiscount : option decimal;
  itemcustomerdiscount : option decimal;
  itempurchaseprice : option decimal;
  itemsellingprice : option decimal;
  itemproductid : option Z;
  itemhsncode : option string;
  itemuom : option string;
  itemtaxpercent : option string;
  sellername : option string;
  sellerphone : option string
}.

(** [float(x) if x else 0.00]. *)
Definition float_or_zero (x : option decimal) : value :=
  match x with
  | Some d => if decimal_truthy d then VFloat (float_of_decimal d) else VFloat 0%float
  | None => VFloat 0%float
  end.

(** [float(x) if x else None]. *)
Definition float_or_none (x : option decimal) : value :=
  match x with
  | Some d => if decimal_truthy d then VFloat (float_of_decimal d) else VNone
  | None => VNone
  end.

(** [x.isoformat() if x else None]; a [datetime] or [date] object is
    always true. *)
Definition isoformat_or_none {T : Type} (isoformat : T -> string) (x : option T) : value :=
  match x with
  | Some t => VStr (isoformat t)
  | None => VNone
  end.

Definition to_dict (self : QuotationItem) : record :=
  list_to_map [
    ("id", of_int (id self));
    ("customername", of_str (customername self));
    ("customerphone", of_str (customerphone self));
    ("customeremail", of_str (customeremail self));
    ("customerid", of_int (customerid self));
    ("customercode", of_str (customercode self));
    ("quotationid", of_int (quotationid self));
    ("quotationcode", of_str (quotationcode self));
    ("quptationstatus", of_str (quptationstatus self));
    ("quotationtotalamount", float_or_zero (quotationtotalamount self));
    ("quotationtermsconditions", of_str (quotationtermsconditions self));
    ("quotationsellerremarks", of_str (quotationsellerremarks self));
    ("quotationissuedby", of_str (quotationissuedby self));
    ("quotationcreatedat", isoformat_or_none datetime_isoformat (quotationcreatedat self));
    ("itemname", of_str (itemname self));
    ("itemspecifications", of_str (itemspecifications self));
    ("itembrand", of_str (itembrand self));
    ("itemquantity", float_or_none (itemquantity self));
    ("itemdeliverydate", isoformat_or_none date_isoformat (itemdeliverydate self));
    ("itempricedemanded", of_str (itempricedemanded self));
    ("itempricevalidtill", isoformat_or_none date_isoformat (itempricevalidtill self));
    ("itemlistingprice", float_or_zero (itemlistingprice self));
    ("itemsellerdiscount", float_or_zero (itemsellerdiscount self));
    ("itemcustomerdiscount", float_or_zero (itemcustomerdiscount self));
    ("itempurchaseprice", float_or_zero (itempurchaseprice self));
    ("itemsellingprice", float_or_zero (itemsellingprice self));
    ("itemproductid", of_int (itemproductid self));
    ("itemhsncode", of_str (itemhsncode self));
    ("itemuom", of_str (itemuom self));
    ("itemtaxpercent", of_str (itemtaxpercent self));
    ("sellername", of_str (sellername self));
    ("sellerphone", of_str (sellerphone self))
  ].

(** The row dictionary has exactly the keys of the request dictionary
    [QuotationItemCreate.dict()]. *)
Theorem to_dict_keys_match_request (self : QuotationItem) (item : QuotationItemCreate) :
  dom (to_dict self) = dom (dict item).
Proof. unfold to_dict, dict. rewrite !dom_list_to_map_L. reflexivity. Qed.

Lemma to_dict_numeric (self : QuotationItem) :
  to_dict self !! "quotationtotalamount" = Some (float_or_zero (quotationtotalamount self))
  /\ to_dict self !! "itemquantity" = Some (float_or_none (itemquantity self))
  /\ to_dict self !! "itemsellingprice" = Some (float_or_zero (itemsellingprice self))
  /\ to_dict self !! "itemlistingprice" = Some (float_or_zero (itemlistingprice self)).
Proof.
  unfold to_dict. rewrite !list_to_map_cons.
  repeat split; rewrite !lookup_insert_ne by done; by rewrite lookup_insert_eq.
Qed.

Lemma float_or_zero_truthy (x : option decimal) :
  truthy (float_or_zero x) = true -> exists d, x = Some d /\ decimal_truthy d = true.
Proof.
  destruct x as [d|]; simpl; [|discriminate].
  destruct (decimal_truthy d) eqn:Hd; [eauto | discriminate].
Qed.

Lemma float_or_none_truthy (x : option decimal) :
  truthy (float_or_none x) = true -> exists d, x = Some d /\ decimal_truthy d = true.
Proof.
  destruct x as [d|]; simpl; [|discriminate].
  destruct (decimal_truthy d) eqn:Hd; [eauto | discriminate].
Qed.

(** A row whose quantity is NULL or zero has [None] under
    [itemquantity], whereas a NULL or zero amount or price becomes [0.0];
    either way the document built from the row dictionary has a Total
    Amount, Quantity, Selling Price or Listing Price part only for a
    stored decimal that is not zero. *)
Theorem to_dict_blank_numbers (self : QuotationItem) :
  (forall d, itemquantity self = None \/ (itemquantity self = Some d /\ digits d = 0) ->
     to_dict self !! "itemquantity" = Some VNone)
  /\ (forall d, itemsellingprice self = None \/ (itemsellingprice self = Some d /\ digits d = 0) ->
       to_dict self !! "itemsellingprice" = Some (VFloat 0%float))
  /\ (included (to_dict self) "quotationtotalamount" = true ->
      exists d, quotationtotalamount self = Some d /\ digits d <> 0)
  /\ (included (to_dict self) "itemquantity" = true ->
      exists d, itemquantity self = Some d /\ digits d <> 0)
  /\ (included (to_dict self) "itemsellingprice" = true ->
      exists d, itemsellingprice self = Some d /\ digits d <> 0)
  /\ (included (to_dict self) "itemlistingprice" = true ->
      exists d, itemlistingprice self = Some d /\ digits d <> 0).
Proof.
  destruct (to_dict_numeric self) as (Htotal & Hqty & Hsell & Hlist).
  assert (Hnz : forall d, decimal_truthy d = true -> digits d <> 0).
  { intros d Hd Hz. unfold decimal_truthy in Hd. rewrite Hz in Hd. discriminate. }
  unfold included, get. rewrite Htotal, Hqty, Hsell, Hlist. simpl.
  split; [|split; [|repeat split]].
  - intros d [->|[-> Hz]]; [reflexivity|].
    simpl. unfold decimal_truthy. by rewrite Hz.
  - intros d [->|[-> Hz]]; [reflexivity|].
    simpl. unfold decimal_truthy. by rewrite Hz.
  - intros H. apply float_or_zero_truthy in H as (d & -> & Hd). eauto.
  - intros H. apply float_or_none_truthy in H as (d & -> & Hd). eauto.
  - intros H. apply float_or_zero_truthy in H as (d & -> & Hd). eauto.
  - intros H. apply float_or_zero_truthy in H as (d & -> & Hd). eauto.
Qed.

End Row.

End models.

(** [float(d)] for the decimals of a [DECIMAL(12, 2)] column: digits and
    power of ten are exact floats, and one rounded operation combines
    them. *)
Definition float_of_small_decimal (d : decimal) : float :=
  let magnitude := PrimFloat.of_uint63 (Uint63.of_Z (Z.abs (digits d))) in
  let power := PrimFloat.of_uint63 (Uint63.of_Z (10 ^ Z.abs (exponent d))) in
  let x := if 0 <=? exponent d then PrimFloat.mul magnitude power
           else PrimFloat.div magnitude power in
  if digits d <? 0 then PrimFloat.opp x else x.

(** A stored row: quantity [0.00], selling price [500.00], listing price
    NULL, total amount [0.00]. *)
Definition stored_row : models.QuotationItem string string := {|
  models.id := Some 4; models.customername := Some "Acme"; models.customerphone := None;
  models.customeremail := None; models.customerid := Some 0; models.customercode := None;
  models.quotationid := Some 0; models.quotationcode := Some "Q1";
  models.quptationstatus := None; models.quotationtotalamount := Some (Decimal 0 (-2));
  models.quotationtermsconditions := None; models.quotationsellerremarks := None;
  models.quotationissuedby := Some "indispare";
  models.quotationcreatedat := Some "2024-05-01T10:00:00";
  models.itemname := Some "Bearing"; models.itemspecifications := None;
  models.itembrand := None; models.itemquantity := Some (Decimal 0 (-2));
  models.itemdeliverydate := None; models.itempricedemanded := None;
  models.itempricevalidtill := None; models.itemlistingprice := None;
  models.itemsellerdiscount := None; models.itemcustomerdiscount := None;
  models.itempurchaseprice := None; models.itemsellingprice := Some (Decimal 50000 (-2));
  models.itemproductid := None; models.itemhsncode := None; models.itemuom := None;
  models.itemtaxpercent := Some "18"; models.sellername := None; models.sellerphone := None
|}.

Abbreviation stored_dict :=
  (models.to_dict float_of_small_decimal string string (fun t => t) (fun t => t) stored_row).

Lemma to_dict_blank_numbers_witness :
  stored_dict !! "itemquantity" = Some VNone
  /\ included stored_dict "itemsellingprice" = true
  /\ exists d, models.itemsellingprice string string stored_row = Some d /\ digits d <> 0.
Proof.
  destruct (models.to_dict_blank_numbers float_of_small_decimal string string
              (fun t => t) (fun t => t) stored_row) as (Hqty & _ & _ & _ & Hsell & _).
  assert (Hincl : included stored_dict "itemsellingprice" = true) by (vm_compute; reflexivity).
  split; [|split; [exact Hincl | exact (Hsell Hincl)]].
  apply (Hqty (Decimal 0 (-2))). right. split; reflexivity.
Defined.

(** The document of the stored row: the zero quantity and total and the
    NULL listing price leave no part. *)
Example stored_row_document :
  create_document_text Stub.float_repr stored_dict
  = "Customer: Acme | Quotation Code: Q1 | Item: Bearing | Selling Price: 500.0".
Proof. vm_compute. reflexivity. Qed.
